(** * ImbalancedStream: a shallow embedding of
      [skmultiflow/data/imbalanced_stream.py]

    The class wraps a labelled data stream and re-emits its instances so that
    the class proportions follow a requested ratio.  Its methods mutate the
    object and may raise; they are embedded as computations in a small
    state-and-exception monad whose state is the object.  The wrapped stream
    and NumPy's random engine are collaborators that live outside the file:
    they enter as interfaces ([Stream], [RandomState]). *)

From Stdlib Require Import ZArith Floats String.
From stdpp Require Import base option list.

Local Open Scope list_scope.

(** ** Python exceptions and a state-and-exception monad *)

Inductive exn : Type :=
  | ValueError (msg : string)
  | IndexError
  | TypeError
  | AttributeError.

(** How a call ends.  [OutOfFuel] is not a Python result: it says that the
    [while] loop had not finished within the given number of iterations. *)
Inductive outcome (A : Type) : Type :=
  | Done (a : A)
  | Raised (e : exn)
  | OutOfFuel.
Arguments Done {A} a.
Arguments Raised {A} e.
Arguments OutOfFuel {A}.

(** A method body: it reads and writes the object; what it wrote before an
    exception stays written. *)
Definition M (St A : Type) : Type := St -> outcome A * St.

Definition ret {St A} (a : A) : M St A := fun st => (Done a, st).

Definition bind {St A B} (m : M St A) (k : A -> M St B) : M St B :=
  fun st =>
    match m st with
    | (Done a, st') => k a st'
    | (Raised e, st') => (Raised e, st')
    | (OutOfFuel, st') => (OutOfFuel, st')
    end.

Definition raise {St A} (e : exn) : M St A := fun st => (Raised e, st).
Definition get {St A} (f : St -> A) : M St A := fun st => (Done (f st), st).
Definition modify {St} (f : St -> St) : M St unit := fun st => (Done tt, f st).

Declare Scope py_scope.
Delimit Scope py_scope with py.
Notation "'do' x <- m ; k" := (bind m (fun x => k))
  (at level 10, x name, m at level 100, k at level 200) : py_scope.
Notation "'exec' m ; k" := (bind m (fun _ => k))
  (at level 10, m at level 100, k at level 200) : py_scope.

(** [try: body except IndexError: handler]. *)
Definition try_except_IndexError {St A} (body handler : M St A) : M St A :=
  fun st =>
    match body st with
    | (Raised IndexError, st') => handler st'
    | r => r
    end.

(** Reading an attribute that may still hold [None] and using it as a
    container or object. *)
Definition not_None {St A} (o : option A) (e : exn) : M St A :=
  match o with
  | Some a => ret a
  | None => raise e
  end.

(** [l[i]] for a non-negative index. *)
Definition subscript {St A} (l : list A) (i : nat) : M St A :=
  match l !! i with
  | Some a => ret a
  | None => raise IndexError
  end.

Definition not_in_list : string := "is not in list".

(** [l.index(x)]: position of the first element equal to [x]. *)
Definition list_index {St A} `{EqDecision A} (l : list A) (x : A) : M St nat :=
  match list_find (fun y => y = x) l with
  | Some (i, _) => ret i
  | None => raise (ValueError not_in_list)
  end.

(** Control flow of a loop body. *)
Inductive ctl : Type := Continue | Break.

(** [while cond: body], run for at most [fuel] iterations. *)
Fixpoint while {St} (fuel : nat) (cond : M St bool) (body : M St ctl) : M St unit :=
  (do c <- cond;
   if c then
     match fuel with
     | O => fun st => (OutOfFuel, st)
     | S fuel' =>
         do b <- body;
         match b with
         | Continue => while fuel' cond body
         | Break => ret tt
         end
     end
   else ret tt)%py.

(** ** Python values of the ratio *)

(** The elements a ratio can hold, by their Python type.  A floating-point
    value is a binary64 float (a [numpy.float32] is one that fits in single
    precision). *)
Inductive pyval : Type :=
  | PyFloat (x : float)
  | NpFloat64 (x : float)
  | NpFloat32 (x : float)
  | PyInt (n : Z)
  | PyStr (s : string).

Inductive pytype : Type := T_float | T_np_float64 | T_np_float32 | T_int | T_str.

Definition type (v : pyval) : pytype :=
  match v with
  | PyFloat _ => T_float
  | NpFloat64 _ => T_np_float64
  | NpFloat32 _ => T_np_float32
  | PyInt _ => T_int
  | PyStr _ => T_str
  end.

Definition pytype_is (a b : pytype) : bool :=
  match a, b with
  | T_float, T_float | T_np_float64, T_np_float64
  | T_np_float32, T_np_float32 | T_int, T_int | T_str, T_str => true
  | _, _ => false
  end.

(** The value the [ratio] argument is bound to. *)
Inductive pyobj : Type :=
  | PyTuple (items : list pyval)
  | PyList (items : list pyval)
  | PyScalar (v : pyval).

Definition is_tuple (o : pyobj) : bool :=
  match o with PyTuple _ => true | _ => false end.

Definition items_of (o : pyobj) : option (list pyval) :=
  match o with
  | PyTuple l | PyList l => Some l
  | PyScalar _ => None
  end.

(** The float an element holds, when it is of a floating-point type. *)
Definition float_of (v : pyval) : option float :=
  match v with
  | PyFloat x | NpFloat64 x | NpFloat32 x => Some x
  | PyInt _ | PyStr _ => None
  end.

(** The array NumPy makes of a tuple of floats. *)
Definition floats_of (l : list pyval) : list float := omap float_of l.

(** [np.all([...])]. *)
Definition np_all (l : list bool) : bool := forallb id l.

(** *** NumPy's float64 sum and rounding

    [np.sum] of a float64 array is [add.reduce]: the result starts at the
    identity 0 and the array is added to it by pairwise summation, which is a
    plain left-to-right loop below 8 elements, 8 interleaved accumulators up
    to 128 elements, and two halves above.  Every addition rounds to
    binary64. *)

(** [res = acc; for x in a: res += x]. *)
Definition sum_seq (acc : float) (a : list float) : float :=
  fold_left PrimFloat.add a acc.

(** [blocks] times: add the next 8 elements to the 8 accumulators. *)
Fixpoint add_blocks (blocks : nat) (r a : list float) : list float * list float :=
  match blocks with
  | O => (r, a)
  | S b => add_blocks b (zip_with PrimFloat.add r (take 8 a)) (drop 8 a)
  end.

(** [((r0 + r1) + (r2 + r3)) + ((r4 + r5) + (r6 + r7))]. *)
Definition combine8 (r : list float) : float :=
  match r with
  | [r0; r1; r2; r3; r4; r5; r6; r7] =>
      ((r0 + r1) + (r2 + r3) + ((r4 + r5) + (r6 + r7)))%float
  | _ => 0%float
  end.

(** The recursion halves the array; [fuel] bounds its depth. *)
Fixpoint pairwise_sum (fuel : nat) (a : list float) : float :=
  let n := length a in
  if n <? 8 then sum_seq 0 a
  else if n <=? 128 then
    let '(r, rest) := add_blocks (n / 8 - 1) (take 8 a) (drop 8 a) in
    sum_seq (combine8 r) rest
  else
    match fuel with
    | O => 0%float
    | S fuel' =>
        let n2 := n / 2 - (n / 2) mod 8 in
        (pairwise_sum fuel' (take n2 a) + pairwise_sum fuel' (drop n2 a))%float
    end.

(** [np.sum(a)]. *)
Definition np_sum (a : list float) : float :=
  (0 + pairwise_sum (length a) a)%float.

(** [2 ** 52]: from here on every binary64 float is an integer. *)
Definition two52 : float := 4503599627370496%float.

(** [np.rint]: the nearest integer, ties to the even one, as a float.  Below
    [2 ** 52] in magnitude, adding and subtracting [2 ** 52] rounds to it;
    a zero result keeps the sign of [x]. *)
Definition rint (x : float) : float :=
  if (PrimFloat.abs x <? two52)%float then
    if (x =? 0)%float then x
    else
      let r := if (0 <? x)%float then (x + two52 - two52)%float
               else (x - two52 + two52)%float in
      if (r =? 0)%float then (if (x <? 0)%float then (- 0)%float else r) else r
  else x.

(** [10 ** n] as a float (exact up to [n = 22]). *)
Fixpoint power_of_ten (n : nat) : float :=
  match n with
  | O => 1%float
  | S n' => (10 * power_of_ten n')%float
  end.

(** [np.round(x, decimals)] for [decimals >= 0]: multiply by the power of
    ten, round to the nearest integer, divide by the power of ten. *)
Definition np_round (x : float) (decimals : nat) : float :=
  let f := power_of_ten decimals in
  (rint (x * f) / f)%float.

(** ** The collaborators *)

(** A wrapped stream, as [ImbalancedStream] uses it.  [stream_next_sample]
    returns the pair [(X, y)] of a batch of feature rows and a batch of labels
    (one of each for a well-formed pull, none when the stream has nothing to
    give) together with the stream's next state. *)
Class Stream (feat label S : Type) : Type := {
  stream_prepare_for_use : S -> S;
  stream_restart : S -> S;
  stream_next_sample : S -> (list feat * list label) * S;
  stream_has_more_samples : S -> bool;
  stream_is_restartable : S -> bool;
  stream_n_remaining_samples : S -> Z;
  stream_n_targets : S -> Z;
  stream_feature_names : S -> list string;
  stream_n_cat_features : S -> Z;
  stream_n_features : S -> Z;
  stream_n_num_features : S -> Z;
  stream_target_names : S -> list string;
  stream_target_values : S -> list label
}.

(** NumPy's random engine and the constructor's [random_state] argument.

    [seed] is that argument as a Python value: [None], an int, or a
    [RandomState] instance.  [check_random_state] turns it into the engine to
    draw from: a fresh engine for an int, the instance itself for an instance,
    [np.random]'s own engine for [None].  In the last two cases the object
    draws from an engine that the argument keeps referring to, so the value
    carries that engine's state: [seed_after s rng] is the argument once the
    engine obtained from it has moved on to [rng] (the same int for an int).

    [choice rng n p] is [rng.choice(np.arange(n), p=p)]: an index below [n],
    or one of NumPy's own argument errors. *)
Class RandomState (seed R : Type) : Type := {
  check_random_state : seed -> R;
  seed_after : seed -> R -> seed;
  choice : R -> nat -> pyobj -> (exn + nat) * R;
  choice_range : forall rng n p k rng',
    choice rng n p = (inr k, rng') -> k < n
}.

Section ImbalancedStream.

Context {feat label seed W R : Type}.
Context `{EqDecision label}.
Context `{!Stream feat label W} `{!RandomState seed R}.

(** The object's attributes.  Those that [__init__] sets to [None] are
    options. *)
Record ImbalancedStream : Type := {
  original_stream : W;
  ratio : pyobj;
  no_more_samples : bool;
  random_state : seed;
  n_targets : option Z;
  feature_names : option (list string);
  n_cat_features : option Z;
  n_features : option Z;
  n_num_features : option Z;
  target_names : option (list string);
  target_values : option (list label);
  _random_state : option R;
  instance_buffer : option (list (list (feat * label)));
  current_sample_x : option feat;
  current_sample_y : option label
}.

Abbreviation Obj := ImbalancedStream.
Abbreviation Py := (M ImbalancedStream).

(** [ImbalancedStream(original_stream, ratio, random_state)]. *)
Definition __init__ (stream : W) (r : pyobj) (rs : seed) : Obj :=
  {| original_stream := stream; ratio := r; no_more_samples := false;
     random_state := rs; n_targets := None; feature_names := None;
     n_cat_features := None; n_features := None; n_num_features := None;
     target_names := None; target_values := None; _random_state := None;
     instance_buffer := None; current_sample_x := None;
     current_sample_y := None |}.

(** Attribute assignments. *)
Definition set_original_stream (s : W) (o : Obj) : Obj :=
  {| original_stream := s; ratio := ratio o;
     no_more_samples := no_more_samples o; random_state := random_state o;
     n_targets := n_targets o; feature_names := feature_names o;
     n_cat_features := n_cat_features o; n_features := n_features o;
     n_num_features := n_num_features o; target_names := target_names o;
     target_values := target_values o; _random_state := _random_state o;
     instance_buffer := instance_buffer o;
     current_sample_x := current_sample_x o;
     current_sample_y := current_sample_y o |}.

Definition set_no_more_samples (b : bool) (o : Obj) : Obj :=
  {| original_stream := original_stream o; ratio := ratio o;
     no_more_samples := b; random_state := random_state o;
     n_targets := n_targets o; feature_names := feature_names o;
     n_cat_features := n_cat_features o; n_features := n_features o;
     n_num_features := n_num_features o; target_names := target_names o;
     target_values := target_values o; _random_state := _random_state o;
     instance_buffer := instance_buffer o;
     current_sample_x := current_sample_x o;
     current_sample_y := current_sample_y o |}.

Definition set_n_targets (n : Z) (o : Obj) : Obj :=
  {| original_stream := original_stream o; ratio := ratio o;
     no_more_samples := no_more_samples o; random_state := random_state o;
     n_targets := Some n; feature_names := feature_names o;
     n_cat_features := n_cat_features o; n_features := n_features o;
     n_num_features := n_num_features o; target_names := target_names o;
     target_values := target_values o; _random_state := _random_state o;
     instance_buffer := instance_buffer o;
     current_sample_x := current_sample_x o;
     current_sample_y := current_sample_y o |}.

(** The six assignments that copy the wrapped stream's description. *)
Definition set_schema (o : Obj) : Obj :=
  let s := original_stream o in
  {| original_stream := s; ratio := ratio o;
     no_more_samples := no_more_samples o; random_state := random_state o;
     n_targets := n_targets o;
     feature_names := Some (stream_feature_names s);
     n_cat_features := Some (stream_n_cat_features s);
     n_features := Some (stream_n_features s);
     n_num_features := Some (stream_n_num_features s);
     target_names := Some (stream_target_names s);
     target_values := Some (stream_target_values s);
     _random_state := _random_state o;
     instance_buffer := instance_buffer o;
     current_sample_x := current_sample_x o;
     current_sample_y := current_sample_y o |}.

Definition set__random_state (r : R) (o : Obj) : Obj :=
  {| original_stream := original_stream o; ratio := ratio o;
     no_more_samples := no_more_samples o; random_state := random_state o;
     n_targets := n_targets o; feature_names := feature_names o;
     n_cat_features := n_cat_features o; n_features := n_features o;
     n_num_features := n_num_features o; target_names := target_names o;
     target_values := target_values o; _random_state := Some r;
     instance_buffer := instance_buffer o;
     current_sample_x := current_sample_x o;
     current_sample_y := current_sample_y o |}.

(** The engine in use has advanced to [r]: [self._random_state] is that
    engine, and [self.random_state] still refers to it when it was given as an
    engine. *)
Definition advance_engine (r : R) (o : Obj) : Obj :=
  {| original_stream := original_stream o; ratio := ratio o;
     no_more_samples := no_more_samples o;
     random_state := seed_after (random_state o) r;
     n_targets := n_targets o; feature_names := feature_names o;
     n_cat_features := n_cat_features o; n_features := n_features o;
     n_num_features := n_num_features o; target_names := target_names o;
     target_values := target_values o; _random_state := Some r;
     instance_buffer := instance_buffer o;
     current_sample_x := current_sample_x o;
     current_sample_y := current_sample_y o |}.

Definition set_instance_buffer (b : list (list (feat * label))) (o : Obj) : Obj :=
  {| original_stream := original_stream o; ratio := ratio o;
     no_more_samples := no_more_samples o; random_state := random_state o;
     n_targets := n_targets o; feature_names := feature_names o;
     n_cat_features := n_cat_features o; n_features := n_features o;
     n_num_features := n_num_features o; target_names := target_names o;
     target_values := target_values o; _random_state := _random_state o;
     instance_buffer := Some b;
     current_sample_x := current_sample_x o;
     current_sample_y := current_sample_y o |}.

Definition set_current_sample (x : option feat) (y : option label) (o : Obj) : Obj :=
  {| original_stream := original_stream o; ratio := ratio o;
     no_more_samples := no_more_samples o; random_state := random_state o;
     n_targets := n_targets o; feature_names := feature_names o;
     n_cat_features := n_cat_features o; n_features := n_features o;
     n_num_features := n_num_features o; target_names := target_names o;
     target_values := target_values o; _random_state := _random_state o;
     instance_buffer := instance_buffer o;
     current_sample_x := x;
     current_sample_y := y |}.

(** ** The methods *)

Local Open Scope py_scope.

Definition multilabel_msg : string :=
  "Imbalanced Stream does not work with multilabel generators".
Definition not_tuple_msg : string :=
  "Please make sure the number of class ratios is provided as a tuple.".
Definition length_msg : string :=
  "Please make sure the number of class ratios provided is less or equal the number of classes in the original stream.".
Definition type_msg : string :=
  "Please make sure only numbers between 0.0 and 1.0 are inputted.".
Definition sum_msg : string :=
  "Please make sure the class ratios sum up to 1.0.".

(** A call of the wrapped stream that only changes the stream. *)
Definition call_original_stream (f : W -> W) : Py unit :=
  modify (fun o => set_original_stream (f (original_stream o)) o).

Definition _set_params_after_init : Py unit :=
  exec modify (fun o => set_n_targets (stream_n_targets (original_stream o)) o);
  do n <- get n_targets;
  if negb (bool_decide (n = Some 1%Z)) then
    raise (ValueError multilabel_msg)
  else
    modify set_schema.

(** The body of [_check_errors] once [self.ratio] is known to be a tuple with
    elements [r]. *)
Definition check_tuple (r : list pyval) (classes : nat) : Py unit :=
  if negb (Nat.eqb (length r) classes) then
    raise (ValueError length_msg)
  else if negb (np_all (map (fun i => pytype_is (type i) T_float) r)
                || np_all (map (fun i => pytype_is (type i) T_np_float64) r)) then
    raise (ValueError type_msg)
  else if negb (np_round (np_sum (floats_of r)) 6 =? 1)%float then
    raise (ValueError sum_msg)
  else
    ret tt.

Definition _check_errors : Py unit :=
  do r <- get ratio;
  match r with
  | PyTuple items =>
      do tv <- get target_values;
      do tv <- not_None tv TypeError;
      check_tuple items (length tv)
  | _ => raise (ValueError not_tuple_msg)
  end.

Definition _prepare_for_use : Py unit :=
  exec _set_params_after_init;
  exec modify (fun o => set__random_state (check_random_state (random_state o)) o);
  do tv <- get target_values;
  do tv <- not_None tv TypeError;
  exec modify (set_instance_buffer (map (fun _ => []) (seq 0 (length tv))));
  exec modify (set_no_more_samples false);
  _check_errors.

Definition prepare_for_use : Py unit :=
  exec call_original_stream stream_prepare_for_use;
  _prepare_for_use.

Definition has_more_samples : Py bool :=
  do flag <- get no_more_samples;
  let has_samples := negb flag in
  do more <- get (fun o => stream_has_more_samples (original_stream o));
  ret (more && has_samples).

Definition is_restartable : Py bool :=
  get (fun o => stream_is_restartable (original_stream o)).

Definition n_remaining_samples : Py Z :=
  get (fun o => stream_n_remaining_samples (original_stream o)).

(** [self._random_state.choice(np.arange(len(self.target_values)), p=self.ratio)]. *)
Definition draw_index_class : Py nat :=
  do rng <- get _random_state;
  do rng <- not_None rng AttributeError;
  do tv <- get target_values;
  do tv <- not_None tv TypeError;
  do p <- get ratio;
  match choice rng (length tv) p with
  | (inr k, rng') => exec modify (advance_engine rng'); ret k
  | (inl e, rng') => exec modify (advance_engine rng'); raise e
  end.

(** [self.original_stream.next_sample()]. *)
Definition pull : Py (list feat * list label) :=
  fun o =>
    let '(inst, s') := stream_next_sample (original_stream o) in
    (Done inst, set_original_stream s' o).

(** [len(self.instance_buffer[index_class]) == 0]. *)
Definition buffer_is_empty (index_class : nat) : Py bool :=
  do bufs <- get instance_buffer;
  do bufs <- not_None bufs TypeError;
  do buf <- subscript bufs index_class;
  ret (Nat.eqb (length buf) 0).

(** One iteration of the loop that fills the buffer of the drawn class. *)
Definition fill_step : Py ctl :=
  do inst <- pull;
  try_except_IndexError
    (do feat <- subscript (fst inst) 0;
     do target <- subscript (snd inst) 0;
     do bufs <- get instance_buffer;
     do tv <- get target_values;
     do tv <- not_None tv AttributeError;
     do i <- list_index tv target;
     do bufs <- not_None bufs TypeError;
     do buf <- subscript bufs i;
     exec modify (set_instance_buffer (<[i := buf ++ [(feat, target)]]> bufs));
     ret Continue)
    (exec modify (set_no_more_samples true);
     ret Break).

(** [self.instance_buffer[index_class].pop(0)]. *)
Definition buffer_pop0 (index_class : nat) : Py (feat * label) :=
  do bufs <- get instance_buffer;
  do bufs <- not_None bufs TypeError;
  do buf <- subscript bufs index_class;
  match buf with
  | [] => raise IndexError
  | x :: rest =>
      exec modify (set_instance_buffer (<[index_class := rest]> bufs));
      ret x
  end.

Definition _next_individual_sample (fuel : nat) : Py (option feat * option label) :=
  do index_class <- draw_index_class;
  exec while fuel (buffer_is_empty index_class) fill_step;
  do flag <- get no_more_samples;
  exec (if flag then
          modify (set_current_sample None None)
        else
          do instance <- buffer_pop0 index_class;
          modify (set_current_sample (Some (fst instance)) (Some (snd instance))));
  get (fun o => (current_sample_x o, current_sample_y o)).

(** The body of [for _ in range(batch_size)], with the two lists built so
    far. *)
Fixpoint next_sample_loop (fuel batch_size : nat)
    (features : list feat) (targets : list label) : Py (list feat * list label) :=
  match batch_size with
  | O => ret (features, targets)
  | S n =>
      do r <- _next_individual_sample fuel;
      match r with
      | (Some feat, Some targ) =>
          next_sample_loop fuel n (features ++ [feat]) (targets ++ [targ])
      | _ => next_sample_loop fuel n features targets
      end
  end.

Definition next_sample (fuel batch_size : nat) : Py (list feat * list label) :=
  next_sample_loop fuel batch_size [] [].

Definition restart : Py unit :=
  exec call_original_stream stream_restart;
  _prepare_for_use.


(** ** Vocabulary of the statements *)

(** The two error classes of the specification; in the code both are
    [ValueError]s and the message tells them apart. *)
Definition ConfigurationError (e : exn) : Prop :=
  e = ValueError not_tuple_msg \/ e = ValueError length_msg \/
  e = ValueError type_msg \/ e = ValueError sum_msg.

Definition UnsupportedSchemaError (e : exn) : Prop :=
  e = ValueError multilabel_msg.

Definition rounded_sum_is_one (items : list pyval) : Prop :=
  (np_round (np_sum (floats_of items)) 6 =? 1)%float = true.

Definition floating_point (v : pyval) : Prop :=
  type v = T_float \/ type v = T_np_float64 \/ type v = T_np_float32.

(** The four conditions on the ratio, read element by element: a tuple, as
    long as the registry, every element a floating-point number, rounded sum
    one. *)
Definition listed_conditions (r : pyobj) (classes : nat) : Prop :=
  exists items, r = PyTuple items /\ length items = classes /\
    Forall floating_point items /\ rounded_sum_is_one items.

(** The conditions the validator tests: the elements are all [float] or all
    [numpy.float64]. *)
Definition accepted (r : pyobj) (classes : nat) : Prop :=
  exists items, r = PyTuple items /\ length items = classes /\
    (Forall (fun v => type v = T_float) items \/
     Forall (fun v => type v = T_np_float64) items) /\
    rounded_sum_is_one items.

(** A ratio that fails one of the validator's tests whatever the types of its
    float elements: not a tuple, not as long as the registry, an element that
    is neither a [float] nor a [numpy.float64], or a rounded sum other than
    one. *)
Definition violating (r : pyobj) (classes : nat) : Prop :=
  is_tuple r = false \/
  exists items, r = PyTuple items /\
    (length items <> classes \/
     Exists (fun v => type v <> T_float /\ type v <> T_np_float64) items \/
     ~ rounded_sum_is_one items).

(** The wrapped stream after [j] pulls, and what the pulls returned. *)
Fixpoint after_pulls (j : nat) (s : W) : W :=
  match j with
  | O => s
  | S j' => after_pulls j' (snd (stream_next_sample s))
  end.

Fixpoint pulls (j : nat) (s : W) : list (list feat * list label) :=
  match j with
  | O => []
  | S j' => fst (stream_next_sample s) :: pulls j' (snd (stream_next_sample s))
  end.

(** The instance in a pull, if the pull holds one: [(inst[0][0], inst[1][0])]. *)
Definition instance_of (inst : list feat * list label) : option (feat * label) :=
  match inst with
  | (x :: _, y :: _) => Some (x, y)
  | _ => None
  end.

Definition instances (j : nat) (s : W) : list (feat * label) :=
  omap instance_of (pulls j s).

(** The wrapped stream has nothing left to give, now and later. *)
Definition exhausted (s : W) : Prop :=
  forall j, instance_of (fst (stream_next_sample (after_pulls j s))) = None.

(** Every label the wrapped stream produces is in the registry. *)
Definition labels_known (s : W) (tv : list label) : Prop :=
  forall j p, instance_of (fst (stream_next_sample (after_pulls j s))) = Some p ->
    snd p ∈ tv.

(** The position of an instance's class in the registry. *)
Definition class_index (tv : list label) (p : feat * label) : option nat :=
  fst <$> list_find (fun y => y = snd p) tv.

(** The instances among [ps] that are filed under class index [i]. *)
Definition filed (tv : list label) (i : nat) (ps : list (feat * label))
    : list (feat * label) :=
  filter (fun p => class_index tv p = Some i) ps.

(** From every point on, the wrapped stream sooner or later gives an instance
    of class [k] or runs empty, whatever [k]. *)
Definition serves_every_class (s : W) (tv : list label) : Prop :=
  forall j k, k < length tv ->
    exists d, match instance_of (fst (stream_next_sample (after_pulls (j + d) s))) with
              | Some p => class_index tv p = Some k
              | None => True
              end.

(** The random engine draws an index for this registry size and ratio. *)
Definition engine_accepts (n : nat) (p : pyobj) : Prop :=
  forall rng : R, exists k rng', choice rng n p = (inr k, rng').

(** The object has been through [_prepare_for_use] far enough to sample. *)
Definition prepared (o : Obj) : Prop :=
  exists tv bufs rng,
    target_values o = Some tv /\ instance_buffer o = Some bufs /\
    _random_state o = Some rng /\ length bufs = length tv.

(** The object as the assignments of [_prepare_for_use] leave it when the
    schema check passes: schema copied, engine built, one empty buffer per
    class, flag cleared. *)
Definition after_preparation (o : Obj) : Obj :=
  let s := original_stream o in
  set_no_more_samples false
    (set_instance_buffer (map (fun _ => []) (seq 0 (length (stream_target_values s))))
       (set__random_state (check_random_state (random_state o))
          (set_schema (set_n_targets (stream_n_targets s) o)))).

(** What sampling leaves alone. *)
Definition same_settings (o o' : Obj) : Prop :=
  ratio o' = ratio o /\ target_values o' = target_values o /\
  n_targets o' = n_targets o.

(** Buffer [i] of the object, empty when there is none. *)
Definition buffer (o : Obj) (i : nat) : list (feat * label) :=
  match instance_buffer o with
  | Some bufs => default [] (bufs !! i)
  | None => []
  end.

(** Every buffered pair sits in the buffer of its own class. *)
Definition buffers_sorted (o : Obj) : Prop :=
  forall tv i p, target_values o = Some tv -> p ∈ buffer o i ->
    class_index tv p = Some i /\ tv !! i = Some (snd p).

(** [o'] is [o] after [j] pulls from the wrapped stream, each instance pulled
    appended to the buffer of its class: nothing else was added to a buffer,
    nothing was removed, and a set exhaustion flag stayed set. *)
Definition pulled (tv : list label) (o : Obj) (j : nat) (o' : Obj) : Prop :=
  original_stream o' = after_pulls j (original_stream o) /\
  same_settings o o' /\
  _random_state o' = _random_state o /\
  (exists bufs', instance_buffer o' = Some bufs' /\ length bufs' = length tv) /\
  (forall i, buffer o' i
             = buffer o i ++ filed tv i (instances j (original_stream o))) /\
  (no_more_samples o = true -> no_more_samples o' = true).

Definition all_buffers_empty (o : Obj) : Prop :=
  exists tv, target_values o = Some tv /\
    instance_buffer o = Some (replicate (length tv) []).

(** The objects one gets from a successful preparation by further calls,
    however they end. *)
Inductive reachable : Obj -> Prop :=
  | reach_prepare o o' :
      prepare_for_use o = (Done tt, o') -> reachable o'
  | reach_prepare_again o r o' :
      reachable o -> prepare_for_use o = (r, o') -> reachable o'
  | reach_restart o r o' :
      reachable o -> restart o = (r, o') -> reachable o'
  | reach_draw o fuel r o' :
      reachable o -> _next_individual_sample fuel o = (r, o') -> reachable o'
  | reach_batch o fuel n r o' :
      reachable o -> next_sample fuel n o = (r, o') -> reachable o'.

(** The instance a draw hands out, if it hands one out. *)
Definition served (r : outcome (option feat * option label)) : list (feat * label) :=
  match r with
  | Done (Some x, Some y) => [(x, y)]
  | _ => []
  end.

(** The end of [_next_individual_sample], after the loop: the sentinel when
    the flag is set, the front of the drawn class's buffer otherwise. *)
Definition hand_out (index_class : nat) : Py (option feat * option label) :=
  do flag <- get no_more_samples;
  exec (if flag then
          modify (set_current_sample None None)
        else
          do instance <- buffer_pop0 index_class;
          modify (set_current_sample (Some (fst instance)) (Some (snd instance))));
  get (fun o => (current_sample_x o, current_sample_y o)).

(** [n] draws in a row, stopping at the first that does not complete. *)
Fixpoint draws (fuel n : nat) : Py (list (option feat * option label)) :=
  match n with
  | O => ret []
  | S n' =>
      do r <- _next_individual_sample fuel;
      do rs <- draws fuel n';
      ret (r :: rs)
  end.

(** One batch after the other, of the sizes [ns]. *)
Fixpoint batches (fuel : nat) (ns : list nat) : Py (list (list feat * list label)) :=
  match ns with
  | [] => ret []
  | n :: ns' =>
      do b <- next_sample fuel n;
      do bs <- batches fuel ns';
      ret (b :: bs)
  end.

(** The results a batch keeps: those with a feature vector and a label. *)
Definition kept (rs : list (option feat * option label)) : list (feat * label) :=
  omap (fun r => match r with
                 | (Some x, Some y) => Some (x, y)
                 | _ => None
                 end) rs.

End ImbalancedStream.

Arguments ImbalancedStream : clear implicits.

(** ** Scripted collaborators

    A wrapped stream that plays back a recorded list of pulls and an engine
    that plays back a recorded list of draws; the examples below run the
    methods on them.  Features are the pull's sequence number. *)

Record scripted_stream : Type := {
  to_come : list (list nat * list nat);
  recording : list (list nat * list nat);
  targets : Z;
  classes : list nat
}.

Definition scripted_next (s : scripted_stream) : (list nat * list nat) * scripted_stream :=
  match to_come s with
  | [] => (([], []), s)
  | inst :: rest =>
      (inst, {| to_come := rest; recording := recording s;
                targets := targets s; classes := classes s |})
  end.

Definition scripted_rewind (s : scripted_stream) : scripted_stream :=
  {| to_come := recording s; recording := recording s;
     targets := targets s; classes := classes s |}.

#[export] Instance scripted_Stream : Stream nat nat scripted_stream := {|
  stream_prepare_for_use := fun s => s;
  stream_restart := scripted_rewind;
  stream_next_sample := scripted_next;
  stream_has_more_samples := fun s => negb (Nat.eqb (length (to_come s)) 0);
  stream_is_restartable := fun _ => true;
  stream_n_remaining_samples := fun s => Z.of_nat (length (to_come s));
  stream_n_targets := targets;
  stream_feature_names := fun _ => ["att_num_0"%string];
  stream_n_cat_features := fun _ => 0%Z;
  stream_n_features := fun _ => 1%Z;
  stream_n_num_features := fun _ => 1%Z;
  stream_target_names := fun _ => ["target_0"%string];
  stream_target_values := classes
|}.

Definition scripted_choice (rng : list nat) (n : nat) (p : pyobj)
    : (exn + nat) * list nat :=
  match n with
  | O => (inl (ValueError "a must be non-empty"), rng)
  | S _ =>
      match rng with
      | [] => (inr 0, [])
      | k :: rest => (inr (k mod n), rest)
      end
  end.

Lemma scripted_choice_range rng n p k rng' :
  scripted_choice rng n p = (inr k, rng') -> k < n.
Proof.
  unfold scripted_choice. destruct n as [|n]; [discriminate|].
  destruct rng as [|k0 rest]; cbv beta iota; intros [= <- _]; [lia|].
  exact (Nat.mod_upper_bound k0 (S n) (Nat.neq_succ_0 n)).
Qed.

(** The [random_state] argument: an int that seeds the script [draws], or an
    engine whose remaining script is [draws]. *)
Inductive scripted_seed : Type :=
  | seeded (draws : list nat)
  | engine (draws : list nat).

Definition scripted_check_random_state (s : scripted_seed) : list nat :=
  match s with
  | seeded draws => draws
  | engine draws => draws
  end.

Definition scripted_seed_after (s : scripted_seed) (rng : list nat) : scripted_seed :=
  match s with
  | seeded draws => seeded draws
  | engine _ => engine rng
  end.

#[export] Instance scripted_RandomState : RandomState scripted_seed (list nat) := {|
  check_random_state := scripted_check_random_state;
  seed_after := scripted_seed_after;
  choice := scripted_choice;
  choice_range := scripted_choice_range
|}.

(** A stream of single-label instances over the classes [cs]. *)
Definition record_of (cs : list nat) (insts : list (nat * nat)) : scripted_stream :=
  let rec := map (fun p => ([fst p], [snd p])) insts in
  {| to_come := rec; recording := rec; targets := 1; classes := cs |}.

Abbreviation Resampler :=
  (ImbalancedStream nat nat scripted_seed scripted_stream (list nat)).

(** Three recorded instances of classes 0, 1, 0, tagged 10, 11, 12. *)
Definition three_instances : scripted_stream :=
  record_of [0; 1] [(10, 0); (11, 1); (12, 0)].

Definition half_half : pyobj := PyTuple [PyFloat 0.5; PyFloat 0.5].

(** A resampler over [three_instances] with ratio [r], whose engine will draw
    the class indices 1, 0, 0, 1. *)
Definition resampler_with (r : pyobj) : Resampler :=
  __init__ three_instances r (seeded [1; 0; 0; 1]).

Definition balanced : Resampler := resampler_with half_half.

(** [(0.5, numpy.float64(0.5))]. *)
Definition mixed_floats : pyobj := PyTuple [PyFloat 0.5; NpFloat64 0.5].

(** [(1.5, -0.5)]. *)
Definition out_of_range : pyobj := PyTuple [PyFloat 1.5; PyFloat (-0.5)].

(** A wrapped stream with two target dimensions. *)
Definition multilabel : Resampler :=
  __init__ {| to_come := [([10], [0])]; recording := [([10], [0])];
              targets := 2; classes := [0; 1] |} half_half (seeded []).

(** [balanced], prepared, after one draw: the draw was for class 1, so the
    instance of class 0 pulled on the way is still buffered. *)
Definition after_one_draw : Resampler :=
  Eval vm_compute in snd (next_sample 10 1 (snd (prepare_for_use balanced))).

(** [balanced] with the ratio [(0.5, numpy.float64(0.5))] instead. *)
Definition rejected : Resampler := resampler_with mixed_floats.

(** [balanced], prepared, after a batch of four: the engine drew 1, 0, 0, 1;
    the fourth draw found the wrapped stream empty. *)
Definition drained : Resampler :=
  Eval vm_compute in snd (next_sample 10 4 (snd (prepare_for_use balanced))).

(** [balanced], prepared. *)
Definition ready : Resampler :=
  Eval vm_compute in snd (prepare_for_use balanced).

(** A resampler over classes 0 and 1 whose wrapped stream gives an instance
    labelled 7, before and after preparation. *)
Definition stray_label_given : Resampler :=
  __init__ (record_of [0; 1] [(10, 0); (11, 7); (12, 1)]) half_half
    (seeded [1; 0; 0; 1]).

Definition stray_label : Resampler :=
  Eval vm_compute in snd (prepare_for_use stray_label_given).

(** [ready] after a batch of three: the wrapped stream has given its three
    instances and all were handed out; the flag is still clear. *)
Definition at_end : Resampler :=
  Eval vm_compute in snd (next_sample 10 3 ready).

(** A resampler whose wrapped stream held one instance, of class 0, after a
    draw for class 1: the instance is buffered and the flag is set. *)
Definition stranded : Resampler :=
  Eval vm_compute in
    snd (next_sample 10 1
           (snd (prepare_for_use
                   (__init__ (record_of [0; 1] [(10, 0)]) half_half
                      (seeded [1; 0; 0]))))).

(** [(numpy.float32(0.5), numpy.float32(0.5))]. *)
Definition single_precision : pyobj := PyTuple [NpFloat32 0.5; NpFloat32 0.5].

(** A resampler whose wrapped stream gives an instance of class 0, then
    nothing, then an instance labelled 7; and the same, prepared, after a
    batch of one: the draw was for class 1 and met the empty pull, so the
    flag is set. *)
Definition resuming_given : Resampler :=
  __init__ {| to_come := [([10], [0]); ([], []); ([11], [7])];
              recording := [([10], [0]); ([], []); ([11], [7])];
              targets := 1; classes := [0; 1] |} half_half (seeded [1; 1]).

Definition resumed : Resampler :=
  Eval vm_compute in snd (next_sample 10 1 (snd (prepare_for_use resuming_given))).

(** [balanced] built on an engine instead of an int seed, prepared, after one
    draw. *)
Definition on_engine : Resampler :=
  Eval vm_compute in
    snd (next_sample 10 1
           (snd (prepare_for_use
                   (__init__ three_instances half_half (engine [1; 0; 0; 1]))))).

(** * Properties *)

Section Properties.

Context {feat label seed W R : Type}.
Context `{EqDecision label}.
Context `{!Stream feat label W} `{!RandomState seed R}.

Abbreviation Obj := (ImbalancedStream feat label seed W R).

Local Open Scope py_scope.

(** Unfold the monad's plumbing. *)
Ltac py_unfold :=
  unfold not_None, subscript, list_index, try_except_IndexError,
    bind, ret, raise, get, modify in *.

(** ** The validator *)

Lemma np_all_type_is (t : pytype) (r : list pyval) :
  np_all (map (fun i => pytype_is (type i) t) r) = true <->
  Forall (fun v => type v = t) r.
Proof.
  unfold np_all. induction r as [|v r IH]; simpl.
  - split; [constructor | reflexivity].
  - rewrite andb_true_iff, IH, Forall_cons. unfold id.
    assert (pytype_is (type v) t = true <-> type v = t) as ->; [|reflexivity].
    destruct (type v), t; simpl; split; congruence.
Qed.

Lemma accepted_tuple (items : list pyval) (n : nat) :
  accepted (PyTuple items) n <->
  Nat.eqb (length items) n = true /\
  (np_all (map (fun i => pytype_is (type i) T_float) items)
   || np_all (map (fun i => pytype_is (type i) T_np_float64) items)) = true /\
  (np_round (np_sum (floats_of items)) 6 =? 1)%float = true.
Proof.
  unfold accepted, rounded_sum_is_one.
  rewrite Nat.eqb_eq, orb_true_iff, !np_all_type_is. split.
  - intros (items' & [= <-] & Hlen & Hty & Hsum). auto.
  - intros (Hlen & Hty & Hsum). exists items. auto.
Qed.

Lemma accepted_dec (r : pyobj) (n : nat) : accepted r n \/ ~ accepted r n.
Proof.
  destruct r as [items| |];
    [|right; intros (? & [=] & _)|right; intros (? & [=] & _)].
  rewrite accepted_tuple.
  destruct (Nat.eqb _ _); [|right; intros [? _]; discriminate].
  destruct (orb _ _); [|right; intros (_ & ? & _); discriminate].
  destruct (PrimFloat.eqb _ _); [left; auto | right; intros (_ & _ & ?); discriminate].
Qed.

Lemma check_tuple_accepts (items : list pyval) (n : nat) (o : Obj) :
  accepted (PyTuple items) n -> check_tuple items n o = (Done tt, o).
Proof.
  rewrite accepted_tuple. intros (Hlen & Hty & Hsum).
  unfold check_tuple. rewrite Hlen, Hty, Hsum. reflexivity.
Qed.

Lemma check_tuple_rejects (items : list pyval) (n : nat) (o : Obj) :
  ~ accepted (PyTuple items) n ->
  exists e, ConfigurationError e /\ check_tuple items n o = (Raised e, o).
Proof.
  rewrite accepted_tuple. intros Hno. unfold check_tuple, ConfigurationError.
  destruct (Nat.eqb _ _); simpl; [|eauto 10].
  destruct (orb _ _); simpl; [|eauto 10].
  destruct (PrimFloat.eqb _ _); simpl; [|eauto 10].
  destruct Hno; auto.
Qed.

Lemma _check_errors_accepts (o : Obj) (tv : list label) :
  target_values o = Some tv -> accepted (ratio o) (length tv) ->
  _check_errors o = (Done tt, o).
Proof.
  intros Htv Hacc. unfold _check_errors. py_unfold.
  destruct Hacc as (items & Hr & Hrest). rewrite Hr, Htv.
  apply check_tuple_accepts. exists items. auto.
Qed.

Lemma _check_errors_rejects (o : Obj) (tv : list label) :
  target_values o = Some tv -> ~ accepted (ratio o) (length tv) ->
  exists e, ConfigurationError e /\ _check_errors o = (Raised e, o).
Proof.
  intros Htv Hno. unfold _check_errors. py_unfold.
  destruct (ratio o) as [items| |] eqn:Hr;
    try (exists (ValueError not_tuple_msg); split; [left|]; reflexivity).
  rewrite Htv. by apply check_tuple_rejects.
Qed.

Lemma ConfigurationError_not_schema (e : exn) :
  ConfigurationError e -> ~ UnsupportedSchemaError e.
Proof.
  unfold ConfigurationError, UnsupportedSchemaError.
  intros [-> | [-> | [-> | ->]]]; discriminate.
Qed.

(** ** Preparation *)

Lemma _prepare_for_use_multilabel (o : Obj) :
  stream_n_targets (original_stream o) <> 1%Z ->
  _prepare_for_use o =
    (Raised (ValueError multilabel_msg),
     set_n_targets (stream_n_targets (original_stream o)) o).
Proof.
  intros Hn. unfold _prepare_for_use, _set_params_after_init. py_unfold. simpl.
  rewrite bool_decide_eq_false_2; [reflexivity | congruence].
Qed.

Lemma _prepare_for_use_single (o : Obj) :
  stream_n_targets (original_stream o) = 1%Z ->
  _prepare_for_use o = _check_errors (after_preparation o).
Proof.
  intros Hn.
  unfold _prepare_for_use, _set_params_after_init, after_preparation.
  py_unfold. simpl. rewrite Hn.
  rewrite bool_decide_eq_true_2 by reflexivity. reflexivity.
Qed.

Lemma _check_errors_pure (o : Obj) :
  snd (_check_errors o) = o.
Proof.
  unfold _check_errors. py_unfold.
  destruct (ratio o) as [items| |]; try reflexivity.
  destruct (target_values o); [|reflexivity].
  unfold check_tuple. py_unfold.
  repeat (match goal with |- context [if ?b then _ else _] => destruct b end);
    reflexivity.
Qed.

Lemma empty_buffers (n : nat) :
  map (fun _ => @nil (feat * label)) (seq 0 n) = replicate n [].
Proof.
  generalize 0. induction n as [|n IH]; intros start; simpl; [reflexivity|].
  f_equal. apply IH.
Qed.

Lemma after_preparation_fields (o : Obj) :
  let o' := after_preparation o in
  original_stream o' = original_stream o /\
  ratio o' = ratio o /\
  no_more_samples o' = false /\
  target_values o' = Some (stream_target_values (original_stream o)) /\
  instance_buffer o' =
    Some (replicate (length (stream_target_values (original_stream o))) []) /\
  _random_state o' = Some (check_random_state (random_state o)).
Proof.
  unfold after_preparation. simpl. rewrite empty_buffers. repeat split.
Qed.

Lemma prepare_for_use_unfold (o : Obj) :
  prepare_for_use o =
  _prepare_for_use (set_original_stream (stream_prepare_for_use (original_stream o)) o).
Proof. reflexivity. Qed.

Lemma restart_unfold (o : Obj) :
  restart o =
  _prepare_for_use (set_original_stream (stream_restart (original_stream o)) o).
Proof. reflexivity. Qed.

Lemma _prepare_for_use_cases (o : Obj) :
  (stream_n_targets (original_stream o) <> 1%Z /\
   _prepare_for_use o =
     (Raised (ValueError multilabel_msg),
      set_n_targets (stream_n_targets (original_stream o)) o)) \/
  (stream_n_targets (original_stream o) = 1%Z /\
   accepted (ratio o) (length (stream_target_values (original_stream o))) /\
   _prepare_for_use o = (Done tt, after_preparation o)) \/
  (stream_n_targets (original_stream o) = 1%Z /\
   ~ accepted (ratio o) (length (stream_target_values (original_stream o))) /\
   exists e, ConfigurationError e /\
     _prepare_for_use o = (Raised e, after_preparation o)).
Proof.
  destruct (decide (stream_n_targets (original_stream o) = 1%Z)) as [Hn|Hn].
  - right. rewrite (_prepare_for_use_single _ Hn).
    destruct (after_preparation_fields o) as (_ & Hr & _ & Htv & _).
    cbv zeta in Hr, Htv. rewrite <- Hr.
    destruct (accepted_dec (ratio (after_preparation o))
                (length (stream_target_values (original_stream o)))) as [Ha|Ha].
    + left. repeat split; [assumption..|]. by apply _check_errors_accepts with (tv := stream_target_values (original_stream o)).
    + right. repeat split; [assumption..|].
      destruct (_check_errors_rejects _ _ Htv Ha) as (e & He & Hrun).
      exists e. split; [assumption|].
      rewrite <- (_check_errors_pure (after_preparation o)) at 2.
      rewrite Hrun. reflexivity.
  - left. split; [assumption|]. by apply _prepare_for_use_multilabel.
Qed.

(** C3, as the code has it: once the wrapped stream is single-label,
    preparation either succeeds or raises a configuration error.  It raises
    one when the ratio is not a tuple, or is not as long as the class
    registry, or holds an element whose type is neither [float] nor
    [numpy.float64], or has a float64 sum that [np.round] to 6 decimals does
    not make 1.0.  It succeeds on every tuple as long as the registry whose
    elements are all [float] or all [numpy.float64] and whose rounded sum is
    1.0. *)
Theorem configuration_error_iff (o : Obj) :
  let s := stream_prepare_for_use (original_stream o) in
  stream_n_targets s = 1%Z ->
  (accepted (ratio o) (length (stream_target_values s)) ->
     fst (prepare_for_use o) = Done tt) /\
  (violating (ratio o) (length (stream_target_values s)) ->
     exists e, ConfigurationError e /\ fst (prepare_for_use o) = Raised e) /\
  (fst (prepare_for_use o) = Done tt \/
   exists e, ConfigurationError e /\ fst (prepare_for_use o) = Raised e).
Proof.
  intros s Hn. rewrite prepare_for_use_unfold.
  assert (violating (ratio o) (length (stream_target_values s)) ->
          ~ accepted (ratio o) (length (stream_target_values s))) as Hviol.
  { intros [Hno|(items & Hr & Hbad)] (items' & Hr' & Hlen & Hty & Hsum).
    - rewrite Hr' in Hno. discriminate.
    - rewrite Hr in Hr'. injection Hr' as <-.
      destruct Hbad as [Hbad|[Hbad|Hbad]]; [congruence| |contradiction].
      apply Exists_exists in Hbad as (v & Hin & Hv1 & Hv2).
      destruct Hty as [Hty|Hty]; rewrite Forall_forall in Hty;
        specialize (Hty v Hin); contradiction. }
  destruct (_prepare_for_use_cases
              (set_original_stream (stream_prepare_for_use (original_stream o)) o))
    as [[Hm _]|[(_ & Ha & ->)|(_ & Ha & e & He & ->)]]; simpl in *.
  - contradiction.
  - split; [reflexivity|]. split; [|left; reflexivity].
    intros Hv. by apply Hviol in Hv.
  - split; [intros Ha'; contradiction|]. split; [eauto | right; eauto].
Qed.

(** C6: when the wrapped stream, once prepared, reports a number of target
    dimensions other than 1, preparation raises the schema error, and the
    wrapped stream is then exactly as its own preparation left it (nothing was
    pulled), with buffers and exhaustion flag untouched. *)
Theorem schema_error_before_any_pull (o : Obj) :
  stream_n_targets (stream_prepare_for_use (original_stream o)) <> 1%Z ->
  exists e o',
    prepare_for_use o = (Raised e, o') /\ UnsupportedSchemaError e /\
    original_stream o' = stream_prepare_for_use (original_stream o) /\
    instance_buffer o' = instance_buffer o /\
    no_more_samples o' = no_more_samples o.
Proof.
  intros Hn. rewrite prepare_for_use_unfold.
  rewrite _prepare_for_use_multilabel by exact Hn.
  eexists _, _. split; [reflexivity|]. repeat split.
Qed.

(** C7: [restart] restarts the wrapped stream and then runs the same
    [_prepare_for_use] as [prepare_for_use] does; when it succeeds, every
    buffer is empty, there is one per class, and the exhaustion flag is
    false. *)
Theorem restart_resets (o o' : Obj) :
  restart o = (Done tt, o') ->
  restart o =
    _prepare_for_use (set_original_stream (stream_restart (original_stream o)) o) /\
  original_stream o' = stream_restart (original_stream o) /\
  all_buffers_empty o' /\
  (forall i, buffer o' i = []) /\
  no_more_samples o' = false.
Proof.
  rewrite restart_unfold. intros Hrun. split; [reflexivity|].
  destruct (_prepare_for_use_cases
              (set_original_stream (stream_restart (original_stream o)) o))
    as [[_ Hr]|[(_ & _ & Hr)|(_ & _ & e & _ & Hr)]];
    rewrite Hr in Hrun; try discriminate.
  injection Hrun as <-.
  destruct (after_preparation_fields
              (set_original_stream (stream_restart (original_stream o)) o))
    as (Hs & _ & Hflag & Htv & Hbuf & _).
  cbv zeta in *.
  split; [exact Hs|]. split; [|split; [|exact Hflag]].
  - eexists. split; [exact Htv | exact Hbuf].
  - intros i. unfold buffer. rewrite Hbuf.
    destruct (replicate _ _ !! i) as [b|] eqn:Hb; [|reflexivity].
    apply lookup_replicate in Hb as [-> _]. reflexivity.
Qed.

Lemma has_more_samples_unfold (o : Obj) :
  has_more_samples o =
  (Done (stream_has_more_samples (original_stream o) && negb (no_more_samples o)), o).
Proof. reflexivity. Qed.

(** C8, as the code has it: a preparation (or restart) that raises, raises a
    schema or a configuration error.  The validator itself changes nothing.
    After a configuration error the object carries the fresh state of a
    preparation (one empty buffer per class, flag cleared), so [has_more]
    answers what the wrapped stream answers; after a schema error buffers,
    registry and flag are those from before the call, and [has_more] answers
    as it would have before, on the wrapped stream as its own call left it. *)
Theorem failed_preparation_state (o : Obj) (e : exn) (o' : Obj) :
  prepare_for_use o = (Raised e, o') \/ restart o = (Raised e, o') ->
  (forall o1 : Obj, snd (_check_errors o1) = o1) /\
  (ConfigurationError e \/ UnsupportedSchemaError e) /\
  (ConfigurationError e ->
     all_buffers_empty o' /\ no_more_samples o' = false /\
     has_more_samples o' =
       (Done (stream_has_more_samples (original_stream o')), o')) /\
  (UnsupportedSchemaError e ->
     instance_buffer o' = instance_buffer o /\
     target_values o' = target_values o /\
     no_more_samples o' = no_more_samples o /\
     has_more_samples o' =
       (Done (stream_has_more_samples (original_stream o')
              && negb (no_more_samples o)), o')).
Proof.
  intros Hrun. split; [exact _check_errors_pure|].
  assert (exists o1, _prepare_for_use o1 = (Raised e, o') /\
            instance_buffer o1 = instance_buffer o /\
            target_values o1 = target_values o /\
            no_more_samples o1 = no_more_samples o) as (o1 & Hrun1 & Hb & Ht & Hf).
  { destruct Hrun as [Hrun|Hrun]; eexists; (split; [exact Hrun|]); repeat split. }
  clear Hrun.
  destruct (_prepare_for_use_cases o1)
    as [[_ Hr]|[(_ & _ & Hr)|(_ & _ & e' & He' & Hr)]];
    rewrite Hr in Hrun1; try discriminate; injection Hrun1 as <- <-.
  - split; [right; reflexivity|]. split.
    + intros He. by apply ConfigurationError_not_schema in He.
    + intros _. rewrite has_more_samples_unfold. simpl.
      rewrite Hb, Ht, Hf. repeat split.
  - split; [left; assumption|]. split.
    + intros _.
      destruct (after_preparation_fields o1) as (_ & _ & Hflag & Htv & Hbuf & _).
      cbv zeta in *. rewrite has_more_samples_unfold, Hflag, andb_true_r.
      repeat split. eexists. split; [exact Htv | exact Hbuf].
    + intros Hs. by apply ConfigurationError_not_schema in He'.
Qed.

(** ** The loop that fills the buffer of the drawn class *)

Lemma fill_step_cases (o : Obj) :
  let inst := fst (stream_next_sample (original_stream o)) in
  let o1 := set_original_stream (snd (stream_next_sample (original_stream o))) o in
  fill_step o =
    match instance_of inst with
    | None => (Done Break, set_no_more_samples true o1)
    | Some p =>
        match target_values o with
        | None => (Raised AttributeError, o1)
        | Some tv =>
            match class_index tv p with
            | None => (Raised (ValueError not_in_list), o1)
            | Some i =>
                match instance_buffer o with
                | None => (Raised TypeError, o1)
                | Some bufs =>
                    match bufs !! i with
                    | None => (Done Break, set_no_more_samples true o1)
                    | Some buf =>
                        (Done Continue,
                         set_instance_buffer (<[i := buf ++ [p]]> bufs) o1)
                    end
                end
            end
        end
    end.
Proof.
  unfold fill_step, pull, class_index. py_unfold.
  destruct (stream_next_sample (original_stream o)) as [[xs ys] s'].
  destruct xs as [|x xs]; simpl; [reflexivity|].
  destruct ys as [|y ys]; simpl; [reflexivity|].
  destruct (target_values o) as [tv|]; simpl; [|reflexivity].
  destruct (list_find _ tv) as [[i y']|]; simpl; [|reflexivity].
  destruct (instance_buffer o) as [bufs|]; simpl; [|reflexivity].
  destruct (bufs !! i); reflexivity.
Qed.

Lemma while_fill_unfold (fuel k : nat) (o : Obj) :
  while fuel (buffer_is_empty k) fill_step o =
    match instance_buffer o with
    | None => (Raised TypeError, o)
    | Some bufs =>
        match bufs !! k with
        | None => (Raised IndexError, o)
        | Some (_ :: _) => (Done tt, o)
        | Some [] =>
            match fuel with
            | O => (OutOfFuel, o)
            | S fuel' =>
                match fill_step o with
                | (Done Continue, o1) => while fuel' (buffer_is_empty k) fill_step o1
                | (Done Break, o1) => (Done tt, o1)
                | (Raised e, o1) => (Raised e, o1)
                | (OutOfFuel, o1) => (OutOfFuel, o1)
                end
            end
        end
    end.
Proof.
  destruct fuel as [|fuel]; simpl; unfold buffer_is_empty; py_unfold;
    destruct (instance_buffer o) as [bufs|]; simpl; try reflexivity;
    destruct (bufs !! k) as [[|p buf]|]; simpl; try reflexivity.
  destruct (fill_step o) as [[[|]|e|] o1]; reflexivity.
Qed.

Lemma class_index_Some (tv : list label) (p : feat * label) (i : nat) :
  class_index tv p = Some i -> i < length tv /\ tv !! i = Some (snd p).
Proof.
  unfold class_index. destruct (list_find _ tv) as [[i' y]|] eqn:Hfind; [|discriminate].
  intros [= <-]. apply list_find_Some in Hfind as (Hlook & -> & _).
  split; [by eapply lookup_lt_Some | exact Hlook].
Qed.

Lemma class_index_None (tv : list label) (p : feat * label) :
  class_index tv p = None -> snd p ∉ tv.
Proof.
  unfold class_index. destruct (list_find _ tv) as [[i' y]|] eqn:Hfind; [discriminate|].
  intros _ Hin. apply list_find_None in Hfind.
  rewrite Forall_forall in Hfind. by apply (Hfind (snd p)).
Qed.

Lemma class_index_elem_of (tv : list label) (p : feat * label) :
  snd p ∈ tv -> is_Some (class_index tv p).
Proof.
  intros Hin. destruct (class_index tv p) eqn:E; [eauto|].
  by apply class_index_None in E.
Qed.

Lemma instances_S (j : nat) (s : W) :
  instances (S j) s =
    match instance_of (fst (stream_next_sample s)) with
    | Some p => p :: instances j (snd (stream_next_sample s))
    | None => instances j (snd (stream_next_sample s))
    end.
Proof. reflexivity. Qed.

Lemma filed_cons (tv : list label) (i : nat) (p : feat * label) ps :
  filed tv i (p :: ps) = filed tv i [p] ++ filed tv i ps.
Proof.
  unfold filed. rewrite !filter_cons. rewrite filter_nil.
  destruct (decide _); reflexivity.
Qed.

Lemma filed_app (tv : list label) (i : nat) (ps qs : list (feat * label)) :
  filed tv i (ps ++ qs) = filed tv i ps ++ filed tv i qs.
Proof. apply filter_app. Qed.

Lemma filed_one (tv : list label) (i : nat) (p : feat * label) :
  filed tv i [p] = if decide (class_index tv p = Some i) then [p] else [].
Proof. unfold filed. rewrite filter_cons, filter_nil. reflexivity. Qed.

Lemma buffer_after_append (o o1 : Obj) (tv : list label) bufs buf (i0 : nat) p :
  instance_buffer o = Some bufs -> bufs !! i0 = Some buf ->
  class_index tv p = Some i0 ->
  forall i, buffer (set_instance_buffer (<[i0 := buf ++ [p]]> bufs) o1) i
            = buffer o i ++ filed tv i [p].
Proof.
  intros Hb Hbuf Hci i. unfold buffer. simpl. rewrite Hb, filed_one.
  destruct (decide (i0 = i)) as [<-|Hne].
  - rewrite list_lookup_insert_eq by (by eapply lookup_lt_Some).
    rewrite Hbuf. simpl. rewrite decide_True by exact Hci. reflexivity.
  - rewrite list_lookup_insert_ne by exact Hne.
    rewrite decide_False by congruence. by rewrite app_nil_r.
Qed.

Lemma pulled_0 (tv : list label) (o : Obj) :
  (exists bufs, instance_buffer o = Some bufs /\ length bufs = length tv) ->
  pulled tv o 0 o.
Proof.
  intros Hb. unfold pulled, same_settings. simpl.
  split; [reflexivity|]. split; [repeat split|]. split; [reflexivity|].
  split; [exact Hb|]. split; [|auto].
  intros i. by rewrite app_nil_r.
Qed.

Lemma pulled_S (tv : list label) (o o1 o' : Obj) (j : nat) :
  original_stream o1 = snd (stream_next_sample (original_stream o)) ->
  same_settings o o1 -> _random_state o1 = _random_state o ->
  (forall i, buffer o1 i
             = buffer o i ++
               filed tv i (match instance_of (fst (stream_next_sample (original_stream o))) with
                           | Some p => [p]
                           | None => []
                           end)) ->
  (no_more_samples o = true -> no_more_samples o1 = true) ->
  pulled tv o1 j o' -> pulled tv o (S j) o'.
Proof.
  intros Hs (Hr1 & Ht1 & Hn1) Hrng1 Hbuf1 Hf1
    (Hs' & (Hr & Ht & Hn) & Hrng & Hb' & Hbuf & Hf).
  unfold pulled, same_settings.
  split; [rewrite Hs', Hs; reflexivity|].
  split; [repeat split; congruence|].
  split; [congruence|]. split; [exact Hb'|]. split; [|tauto].
  intros i. rewrite Hbuf, Hbuf1, Hs, instances_S, <- app_assoc. f_equal.
  destruct (instance_of _) as [p|]; [|reflexivity].
  symmetry. apply filed_cons.
Qed.

(** What the loop does, for every way it can end. *)
Lemma fill_loop_spec (k : nat) (tv : list label) (fuel : nat) :
  forall (o : Obj) r o',
  target_values o = Some tv ->
  (exists bufs, instance_buffer o = Some bufs /\ length bufs = length tv) ->
  k < length tv ->
  while fuel (buffer_is_empty k) fill_step o = (r, o') ->
  exists j,
    pulled tv o j o' /\ j <= fuel /\
    match r with
    | Done _ =>
        (no_more_samples o' = no_more_samples o /\ buffer o' k <> []) \/
        (no_more_samples o' = true /\
         exists j', j = S j' /\
           instance_of (fst (stream_next_sample (after_pulls j' (original_stream o))))
           = None)
    | Raised e =>
        e = ValueError not_in_list /\
        exists j' p, j = S j' /\
          instance_of (fst (stream_next_sample (after_pulls j' (original_stream o))))
          = Some p /\ class_index tv p = None
    | OutOfFuel =>
        j = fuel /\ buffer o' k = [] /\ no_more_samples o' = no_more_samples o
    end.
Proof.
  induction fuel as [|fuel IH]; intros o r o' Htv Hbufs Hk Hrun;
    pose proof Hbufs as (bufs & Hb & Hlen);
    rewrite while_fill_unfold, Hb in Hrun;
    (destruct (bufs !! k) as [[|q buf]|] eqn:Hbk;
     [| |apply lookup_ge_None in Hbk; lia]).
  - injection Hrun as <- <-. exists 0. split; [by apply pulled_0|].
    split; [lia|]. unfold buffer. rewrite Hb, Hbk. auto.
  - injection Hrun as <- <-. exists 0. split; [by apply pulled_0|].
    split; [lia|]. left. unfold buffer. rewrite Hb, Hbk. auto.
  - rewrite fill_step_cases in Hrun. cbv zeta in Hrun.
    destruct (instance_of _) as [p|] eqn:Hinst.
    + rewrite Htv, Hb in Hrun.
      destruct (class_index tv p) as [i0|] eqn:Hci.
      * destruct (class_index_Some _ _ _ Hci) as [Hi0 _].
        destruct (lookup_lt_is_Some_2 bufs i0) as [b0 Hb0]; [lia|].
        rewrite Hb0 in Hrun.
        apply IH in Hrun as (j & Hp & Hj & Hr); simpl; try assumption.
        2:{ eexists. split; [reflexivity|]. by rewrite length_insert. }
        exists (S j). split.
        { eapply pulled_S; [| | | | |exact Hp]; simpl; try reflexivity.
          - unfold same_settings. simpl. repeat split.
          - intros i. rewrite Hinst. by eapply buffer_after_append.
          - auto. }
        split; [lia|].
        destruct r as [[]|e|]; simpl in *.
        -- destruct Hr as [[Hf Hne]|[Hf (j' & -> & Hj')]];
             [left; auto | right; split; [exact Hf|]].
           exists (S j'). split; [reflexivity | exact Hj'].
        -- destruct Hr as (-> & j' & p' & -> & Hj' & Hp').
           split; [reflexivity|]. exists (S j'), p'. auto.
        -- destruct Hr as (-> & Hk' & Hf). auto.
      * injection Hrun as <- <-. exists 1. split.
        { eapply pulled_S; [| | | | |apply pulled_0]; simpl; try reflexivity.
          - unfold same_settings. simpl. repeat split.
          - intros i. rewrite Hinst, filed_one.
            rewrite decide_False by congruence. by rewrite app_nil_r.
          - auto.
          - simpl. eauto. }
        split; [lia|]. split; [reflexivity|]. exists 0, p. auto.
    + injection Hrun as <- <-. exists 1. split.
      { eapply pulled_S; [| | | | |apply pulled_0]; simpl; try reflexivity.
        - unfold same_settings. simpl. repeat split.
        - intros i. rewrite Hinst. by rewrite app_nil_r.
        - simpl. eauto. }
      split; [lia|]. right. split; [reflexivity|]. exists 0. auto.
  - injection Hrun as <- <-. exists 0. split; [by apply pulled_0|].
    split; [lia|]. left. unfold buffer. rewrite Hb, Hbk. auto.
Qed.

(** ** One draw *)

Lemma draw_index_class_cases (o : Obj) (tv : list label) (rng : R) :
  target_values o = Some tv -> _random_state o = Some rng ->
  draw_index_class o =
    match choice rng (length tv) (ratio o) with
    | (inr k, rng') => (Done k, advance_engine rng' o)
    | (inl e, rng') => (Raised e, advance_engine rng' o)
    end.
Proof.
  intros Htv Hrng. unfold draw_index_class. py_unfold. simpl.
  rewrite Hrng. simpl. rewrite Htv. simpl.
  destruct (choice _ _ _) as [[e|k] rng']; reflexivity.
Qed.

(** What a draw does, for every way it can end: either the engine refuses to
    draw, or it draws [k] and the loop pulls [j] times, leaving [o1]; then the
    draw ends as the loop did, or it returns the sentinel (flag set), or it
    pops the front of buffer [k]. *)
Lemma draw_spec (fuel : nat) (o : Obj) r o' (tv : list label) (rng : R) :
  target_values o = Some tv ->
  (exists bufs, instance_buffer o = Some bufs /\ length bufs = length tv) ->
  _random_state o = Some rng ->
  _next_individual_sample fuel o = (r, o') ->
  (exists e rng', choice rng (length tv) (ratio o) = (inl e, rng') /\
     r = Raised e /\ o' = advance_engine rng' o) \/
  (exists k rng' j o1,
     choice rng (length tv) (ratio o) = (inr k, rng') /\ k < length tv /\
     pulled tv (advance_engine rng' o) j o1 /\ j <= fuel /\
     match r with
     | Done xy =>
         (no_more_samples o1 = true /\ xy = (None, None) /\
          o' = set_current_sample None None o1 /\
          (no_more_samples o = true \/
           exists j', j = S j' /\
             instance_of (fst (stream_next_sample (after_pulls j' (original_stream o))))
             = None)) \/
         (no_more_samples o1 = false /\ no_more_samples o = false /\
          exists p rest bufs1,
            instance_buffer o1 = Some bufs1 /\ bufs1 !! k = Some (p :: rest) /\
            xy = (Some (fst p), Some (snd p)) /\
            o' = set_current_sample (Some (fst p)) (Some (snd p))
                   (set_instance_buffer (<[k := rest]> bufs1) o1))
     | Raised e =>
         e = ValueError not_in_list /\ o' = o1 /\
         exists j' p, j = S j' /\
           instance_of (fst (stream_next_sample (after_pulls j' (original_stream o))))
           = Some p /\ class_index tv p = None
     | OutOfFuel => o' = o1 /\ j = fuel /\ buffer o1 k = []
     end).
Proof.
  intros Htv Hbufs Hrng. unfold _next_individual_sample, bind at 1.
  rewrite (draw_index_class_cases o tv rng Htv Hrng).
  destruct (choice rng (length tv) (ratio o)) as [[e|k] rng'] eqn:Hch.
  { intros [= <- <-]. left. eauto. }
  intros Hrun. right. exists k, rng'.
  pose proof (choice_range _ _ _ _ _ Hch) as Hk.
  unfold bind at 1 in Hrun.
  destruct (while fuel _ _ _) as [r1 o1] eqn:Hloop.
  apply (fill_loop_spec k tv) in Hloop as (j & Hp & Hj & Hr1);
    [|exact Htv|exact Hbufs|exact Hk].
  exists j, o1. split; [reflexivity|]. split; [exact Hk|].
  split; [exact Hp|]. split; [exact Hj|].
  destruct Hp as (_ & _ & _ & (bufs1 & Hb1 & Hlen1) & _ & Hflag).
  simpl in Hflag, Hr1.
  destruct r1 as [[]|e|]; simpl in Hrun;
    [|injection Hrun as <- <-; tauto|injection Hrun as <- <-; tauto].
  unfold buffer_pop0 in Hrun. py_unfold. simpl in Hrun.
  destruct (no_more_samples o1) eqn:Hf1; simpl in Hrun.
  - injection Hrun as <- <-. left. do 3 (split; [reflexivity|]).
    destruct Hr1 as [[Hf _]|[_ Hj']]; [left; auto | right; exact Hj'].
  - destruct Hr1 as [[Hf Hne]|[Hf _]]; [|discriminate].
    rewrite Hb1 in Hrun. unfold buffer in Hne. rewrite Hb1 in Hne.
    destruct (bufs1 !! k) as [[|p rest]|] eqn:Hbk; simpl in Hne;
      try congruence.
    simpl in Hrun. injection Hrun as <- <-. right.
    split; [reflexivity|]. split; [congruence|].
    exists p, rest, bufs1. auto.
Qed.

Lemma pulled_sorted (tv : list label) (o o1 : Obj) (j : nat) :
  target_values o = Some tv -> buffers_sorted o -> pulled tv o j o1 ->
  buffers_sorted o1.
Proof.
  intros Htv Hsorted (_ & (_ & Ht & _) & _ & _ & Hbuf & _) tv' i p Htv' Hin.
  rewrite Ht, Htv in Htv'. injection Htv' as <-.
  rewrite Hbuf in Hin. apply elem_of_app in Hin as [Hin|Hin].
  - by apply Hsorted.
  - apply list_elem_of_filter in Hin as [Hci _].
    split; [exact Hci | by apply class_index_Some in Hci as [_ ?]].
Qed.

Lemma pulled_prepared (tv : list label) (o o1 : Obj) (j : nat) (rng : R) :
  target_values o = Some tv -> _random_state o = Some rng ->
  pulled tv o j o1 -> prepared o1.
Proof.
  intros Htv Hrng (_ & (_ & Ht & _) & Hr & (bufs1 & Hb1 & Hlen1) & _).
  exists tv, bufs1, rng. repeat split; congruence.
Qed.

Lemma buffer_after_pop (o1 : Obj) bufs1 (k : nat) p rest x y :
  instance_buffer o1 = Some bufs1 -> bufs1 !! k = Some (p :: rest) ->
  forall i,
    buffer o1 i =
      (if decide (k = i) then [p] else []) ++
      buffer (set_current_sample x y (set_instance_buffer (<[k := rest]> bufs1) o1)) i.
Proof.
  intros Hb Hbk i. unfold buffer. simpl. rewrite Hb.
  destruct (decide (k = i)) as [<-|Hne].
  - rewrite list_lookup_insert_eq by (by eapply lookup_lt_Some).
    rewrite Hbk. reflexivity.
  - rewrite list_lookup_insert_ne by exact Hne. reflexivity.
Qed.

(** The effect of a draw on the buffers, however it ends: what was buffered
    plus what was pulled, class by class and in order, is what the draw
    handed out followed by what is buffered afterwards. *)
Lemma draw_effect (fuel : nat) (o : Obj) r o' (tv : list label) :
  target_values o = Some tv -> prepared o -> buffers_sorted o ->
  _next_individual_sample fuel o = (r, o') ->
  exists j,
    original_stream o' = after_pulls j (original_stream o) /\
    same_settings o o' /\ prepared o' /\ buffers_sorted o' /\
    (forall i, buffer o i ++ filed tv i (instances j (original_stream o))
               = filed tv i (served r) ++ buffer o' i) /\
    (no_more_samples o = true -> no_more_samples o' = true /\ served r = []) /\
    j <= fuel.
Proof.
  intros Htv (tv' & bufs & rng & Htv' & Hb & Hrng & Hlen) Hsorted Hrun.
  rewrite Htv in Htv'. injection Htv' as <-.
  eapply draw_spec in Hrun as
    [(e & rng' & Hch & -> & ->)|(k & rng' & j & o1 & Hch & Hk & Hp & Hj & Hr)];
    eauto.
  { exists 0. simpl. split; [reflexivity|]. split; [repeat split|].
    split; [exists tv, bufs, rng'; auto|]. split; [exact Hsorted|].
    split; [intros i; by rewrite app_nil_r|]. split; [auto | lia]. }
  assert (buffers_sorted o1) as Hsorted1.
  { eapply pulled_sorted; [| |exact Hp]; [exact Htv | exact Hsorted]. }
  assert (prepared o1) as Hprep1.
  { eapply pulled_prepared; [| |exact Hp]; [exact Htv | reflexivity]. }
  assert (original_stream o1 = after_pulls j (original_stream o) /\
          same_settings o o1 /\
          (forall i, buffer o1 i
                     = buffer o i ++ filed tv i (instances j (original_stream o))) /\
          (no_more_samples o = true -> no_more_samples o1 = true))
    as (Hs1 & Hset & Hbuf1 & Hflag1).
  { destruct Hp as (? & ? & _ & _ & ? & ?). auto. }
  exists j.
  destruct r as [xy|e|].
  - destruct Hr as [(Hf1 & -> & -> & _)|(Hf1 & Hf & p & rest & bufs1 & Hb1 & Hbk & -> & ->)].
    + simpl. split; [exact Hs1|]. split; [exact Hset|].
      split; [exact Hprep1|]. split; [exact Hsorted1|].
      split; [intros i; symmetry; apply Hbuf1|]. split; [auto | exact Hj].
    + assert (class_index tv p = Some k) as Hci.
      { destruct Hset as (_ & Ht1 & _). rewrite Htv in Ht1.
        apply (Hsorted1 tv k p Ht1). unfold buffer. rewrite Hb1, Hbk.
        simpl. apply list_elem_of_here. }
      simpl. split; [exact Hs1|]. split; [exact Hset|].
      split.
      { destruct Hprep1 as (tv1 & bufs1' & rng1 & Ht1 & Hb1' & Hr1 & Hlen1).
        exists tv1, (<[k := rest]> bufs1), rng1. simpl.
        rewrite Hb1 in Hb1'. injection Hb1' as <-.
        rewrite length_insert. auto. }
      split.
      { intros tv1 i q Ht1 Hin. apply (Hsorted1 tv1 i q Ht1).
        rewrite (buffer_after_pop o1 bufs1 k p rest (Some (fst p)) (Some (snd p)) Hb1 Hbk).
        apply elem_of_app. right. exact Hin. }
      split.
      { intros i. rewrite <- Hbuf1.
        rewrite (buffer_after_pop o1 bufs1 k p rest (Some (fst p)) (Some (snd p)) Hb1 Hbk).
        f_equal. destruct p as [x y]. simpl. rewrite filed_one.
        destruct (decide (k = i)) as [<-|Hne].
        - by rewrite decide_True.
        - rewrite decide_False; [reflexivity | congruence]. }
      split; [congruence | exact Hj].
  - destruct Hr as (_ & -> & _). simpl.
    split; [exact Hs1|]. split; [exact Hset|]. split; [exact Hprep1|].
    split; [exact Hsorted1|].
    split; [intros i; symmetry; apply Hbuf1|]. split; [auto | exact Hj].
  - destruct Hr as (-> & _ & _). simpl.
    split; [exact Hs1|]. split; [exact Hset|]. split; [exact Hprep1|].
    split; [exact Hsorted1|].
    split; [intros i; symmetry; apply Hbuf1|]. split; [auto | exact Hj].
Qed.

(** ** Several draws *)

Lemma after_pulls_add (j1 j2 : nat) (s : W) :
  after_pulls (j1 + j2) s = after_pulls j2 (after_pulls j1 s).
Proof.
  revert s. induction j1 as [|j1 IH]; intros s; simpl; [reflexivity | apply IH].
Qed.

Lemma instances_add (j1 j2 : nat) (s : W) :
  instances (j1 + j2) s = instances j1 s ++ instances j2 (after_pulls j1 s).
Proof.
  revert s. induction j1 as [|j1 IH]; intros s; [reflexivity|].
  change (S j1 + j2) with (S (j1 + j2)). rewrite !instances_S, IH. simpl.
  destruct (instance_of _); reflexivity.
Qed.

Lemma kept_cons (r : option feat * option label) rs :
  kept (r :: rs) = served (Done r) ++ kept rs.
Proof. destruct r as [[x|] [y|]]; reflexivity. Qed.

Lemma kept_length (rs : list (option feat * option label)) :
  length (kept rs) <= length rs.
Proof.
  induction rs as [|r rs IH]; [reflexivity|].
  rewrite kept_cons, length_app. destruct r as [[x|] [y|]]; simpl; lia.
Qed.

(** A batch is [batch_size] draws in a row: it ends as they end, and when they
    all complete it returns the features and the labels of the results kept,
    in the order drawn, after what the two lists held already. *)
Lemma next_sample_loop_draws (fuel n : nat) :
  forall (fs : list feat) (ts : list label) (o : Obj),
  next_sample_loop fuel n fs ts o =
    match draws fuel n o with
    | (Done rs, o') =>
        (Done (fs ++ map fst (kept rs), ts ++ map snd (kept rs)), o')
    | (Raised e, o') => (Raised e, o')
    | (OutOfFuel, o') => (OutOfFuel, o')
    end.
Proof.
  induction n as [|n IH]; intros fs ts o; simpl.
  - unfold ret. by rewrite !app_nil_r.
  - unfold bind.
    destruct (_next_individual_sample fuel o) as [[[x y]|e|] o1]; try reflexivity.
    destruct x as [x|]; [destruct y as [y|]|]; rewrite IH;
      destruct (draws fuel n o1) as [[rs|e|] o2]; try reflexivity;
      unfold ret; cbv beta iota; rewrite kept_cons; simpl;
      rewrite <- ?app_assoc; reflexivity.
Qed.

Lemma draws_length (fuel n : nat) :
  forall (o : Obj) rs o', draws fuel n o = (Done rs, o') -> length rs = n.
Proof.
  induction n as [|n IH]; intros o rs o'; simpl.
  - intros [= <- _]. reflexivity.
  - unfold bind.
    destruct (_next_individual_sample fuel o) as [[r|e|] o1]; try discriminate.
    destruct (draws fuel n o1) as [[rs1|e|] o2] eqn:Hd; try discriminate.
    intros [= <- _]. simpl. f_equal. by eapply IH.
Qed.

Lemma same_settings_trans (o o1 o2 : Obj) :
  same_settings o o1 -> same_settings o1 o2 -> same_settings o o2.
Proof.
  unfold same_settings. intros (? & ? & ?) (? & ? & ?).
  repeat split; congruence.
Qed.

(** The effect of [n] draws in a row on the buffers; [out] is what they
    handed out, in order. *)
Lemma draws_effect (fuel n : nat) (tv : list label) :
  forall (o : Obj) r o',
  target_values o = Some tv -> prepared o -> buffers_sorted o ->
  draws fuel n o = (r, o') ->
  exists j out,
    original_stream o' = after_pulls j (original_stream o) /\
    same_settings o o' /\ prepared o' /\ buffers_sorted o' /\
    (forall i, buffer o i ++ filed tv i (instances j (original_stream o))
               = filed tv i out ++ buffer o' i) /\
    (forall rs, r = Done rs -> out = kept rs) /\
    (no_more_samples o = true -> no_more_samples o' = true /\ out = []).
Proof.
  induction n as [|n IH]; intros o r o' Htv Hprep Hsorted; simpl.
  - intros [= <- <-]. exists 0, []. simpl.
    split; [reflexivity|]. split; [repeat split|]. split; [exact Hprep|].
    split; [exact Hsorted|]. split; [intros i; by rewrite app_nil_r|].
    split; [intros rs [= <-]; reflexivity | auto].
  - unfold bind.
    destruct (_next_individual_sample fuel o) as [r1 o1] eqn:Hdraw.
    destruct (draw_effect _ _ _ _ _ Htv Hprep Hsorted Hdraw)
      as (j1 & Hs1 & Hset1 & Hprep1 & Hsorted1 & Hbuf1 & Hflag1 & _).
    assert (target_values o1 = Some tv) as Htv1.
    { destruct Hset1 as (_ & -> & _). exact Htv. }
    destruct r1 as [xy|e|].
    2,3: intros [= <- <-]; exists j1, [];
      (split; [exact Hs1|]); (split; [exact Hset1|]); (split; [exact Hprep1|]);
      (split; [exact Hsorted1|]); (split; [exact Hbuf1|]);
      (split; [discriminate|]); intros Hf; split; [by apply Hflag1 | reflexivity].
    destruct (draws fuel n o1) as [r2 o2] eqn:Hrest.
    destruct (IH _ _ _ Htv1 Hprep1 Hsorted1 Hrest)
      as (j2 & out2 & Hs2 & Hset2 & Hprep2 & Hsorted2 & Hbuf2 & Hout2 & Hflag2).
    intros Hrun.
    assert (o' = o2) as ->.
    { destruct r2; injection Hrun as <- <-; reflexivity. }
    exists (j1 + j2), (served (Done xy) ++ out2).
    split; [by rewrite after_pulls_add, <- Hs1|].
    split; [by eapply same_settings_trans|]. split; [exact Hprep2|].
    split; [exact Hsorted2|]. split; [|split].
    + intros i. rewrite instances_add, !filed_app, app_assoc, Hbuf1.
      rewrite <- !app_assoc. f_equal. rewrite <- Hs1. apply Hbuf2.
    + intros rs ->. destruct r2 as [rs2|e|]; try discriminate.
      injection Hrun as <-. rewrite kept_cons, (Hout2 rs2 eq_refl). reflexivity.
    + intros Hf. destruct (Hflag1 Hf) as [Hf1 ->].
      destruct (Hflag2 Hf1) as [Hf2 ->]. auto.
Qed.

(** ** Reachable objects *)

Lemma after_preparation_prepared (o : Obj) :
  prepared (after_preparation o) /\ buffers_sorted (after_preparation o) /\
  all_buffers_empty (after_preparation o).
Proof.
  destruct (after_preparation_fields o) as (_ & _ & _ & Htv & Hbuf & Hrng).
  cbv zeta in *. split; [|split].
  - eexists _, _, _. split; [exact Htv|]. split; [exact Hbuf|].
    split; [exact Hrng|]. apply length_replicate.
  - intros tv i p _. unfold buffer. rewrite Hbuf.
    destruct (replicate _ _ !! i) as [b|] eqn:Hb; simpl.
    + apply lookup_replicate in Hb as [-> _]. by intros ?%elem_of_nil.
    + by intros ?%elem_of_nil.
  - eexists. split; [exact Htv | exact Hbuf].
Qed.

Lemma _prepare_for_use_invariant (o1 : Obj) r o' :
  _prepare_for_use o1 = (r, o') ->
  r = Done tt \/ (prepared o1 /\ buffers_sorted o1) ->
  prepared o' /\ buffers_sorted o'.
Proof.
  intros Hrun Hbefore.
  destruct (_prepare_for_use_cases o1)
    as [[_ Hr]|[(_ & _ & Hr)|(_ & _ & e & _ & Hr)]];
    rewrite Hr in Hrun; injection Hrun as <- <-.
  - destruct Hbefore as [?|Hinv]; [discriminate | exact Hinv].
  - destruct (after_preparation_prepared o1) as (? & ? & _). auto.
  - destruct (after_preparation_prepared o1) as (? & ? & _). auto.
Qed.

Lemma next_sample_state (fuel n : nat) (o : Obj) :
  snd (next_sample fuel n o) = snd (draws fuel n o).
Proof.
  unfold next_sample. rewrite next_sample_loop_draws.
  destruct (draws fuel n o) as [[rs|e|] o']; reflexivity.
Qed.

(** Every reachable object is ready to sample and keeps each buffered pair
    in the buffer of its class. *)
Lemma reachable_invariant (o : Obj) :
  reachable o -> prepared o /\ buffers_sorted o.
Proof.
  induction 1 as [o o' Hrun|o r o' _ IH Hrun|o r o' _ IH Hrun
                 |o fuel r o' _ IH Hrun|o fuel n r o' _ IH Hrun].
  - rewrite prepare_for_use_unfold in Hrun.
    eapply _prepare_for_use_invariant; [exact Hrun | by left].
  - rewrite prepare_for_use_unfold in Hrun.
    eapply _prepare_for_use_invariant; [exact Hrun | right; exact IH].
  - rewrite restart_unfold in Hrun.
    eapply _prepare_for_use_invariant; [exact Hrun | right; exact IH].
  - destruct IH as [Hprep Hsorted].
    pose proof Hprep as (tv & _ & _ & Htv & _).
    destruct (draw_effect _ _ _ _ _ Htv Hprep Hsorted Hrun)
      as (_ & _ & _ & ? & ? & _). auto.
  - destruct IH as [Hprep Hsorted].
    pose proof Hprep as (tv & _ & _ & Htv & _).
    assert (o' = snd (draws fuel n o)) as ->.
    { rewrite <- next_sample_state, Hrun. reflexivity. }
    destruct (draws fuel n o) as [r2 o2] eqn:Hd.
    destruct (draws_effect _ _ _ _ _ _ Htv Hprep Hsorted Hd)
      as (_ & _ & _ & _ & ? & ? & _). auto.
Qed.

(** C2: in every reachable object there is one buffer per class and every
    pair in buffer [i] carries the class value at index [i] of the registry.
    A draw, however it ends, changes the buffers in two ways only: the
    instances pulled from the wrapped stream are appended, each to the buffer
    of its own class and in the order pulled, and the instance handed out, if
    any, is taken from the front of the buffer of its class. *)
Theorem buffers_hold_their_class (o : Obj) :
  reachable o ->
  (exists tv bufs,
     target_values o = Some tv /\ instance_buffer o = Some bufs /\
     length bufs = length tv /\
     forall i buf p, bufs !! i = Some buf -> p ∈ buf -> tv !! i = Some (snd p)) /\
  (forall fuel r o',
     _next_individual_sample fuel o = (r, o') ->
     exists tv j,
       target_values o = Some tv /\ target_values o' = Some tv /\
       original_stream o' = after_pulls j (original_stream o) /\
       forall i, buffer o i ++ filed tv i (instances j (original_stream o))
                 = filed tv i (served r) ++ buffer o' i).
Proof.
  intros Hreach. destruct (reachable_invariant o Hreach) as [Hprep Hsorted].
  pose proof Hprep as (tv & bufs & rng & Htv & Hb & Hrng & Hlen). split.
  - exists tv, bufs. repeat (split; [assumption|]).
    intros i buf p Hi Hin. apply (Hsorted tv i p Htv).
    unfold buffer. rewrite Hb, Hi. exact Hin.
  - intros fuel r o' Hrun.
    destruct (draw_effect _ _ _ _ _ Htv Hprep Hsorted Hrun)
      as (j & Hs & (_ & Ht & _) & _ & _ & Hbuf & _).
    exists tv, j. split; [exact Htv|]. split; [by rewrite Ht|].
    split; [exact Hs | exact Hbuf].
Qed.

(** C1: in a reachable object whose exhaustion flag is not set, a draw that
    completes without setting it has drawn a class index [k] and returns the
    pair [p] at the front of buffer [k] as the loop left it: [p] heads what
    buffer [k] held followed by the class-[k] instances pulled by this draw,
    its class value is the registry entry at [k], and the other buffers only
    grew by what was pulled for them.  For a whole batch: per class, what was
    buffered followed by what was pulled is what was returned followed by what
    is buffered afterwards, so each class is returned in the order pulled. *)
Theorem draw_serves_front (o : Obj) :
  reachable o ->
  (forall fuel xy o',
     no_more_samples o = false ->
     _next_individual_sample fuel o = (Done xy, o') ->
     no_more_samples o' = false ->
     exists tv rng k rng' j p,
       target_values o = Some tv /\ _random_state o = Some rng /\
       choice rng (length tv) (ratio o) = (inr k, rng') /\
       xy = (Some (fst p), Some (snd p)) /\ tv !! k = Some (snd p) /\
       original_stream o' = after_pulls j (original_stream o) /\
       buffer o k ++ filed tv k (instances j (original_stream o))
         = p :: buffer o' k /\
       forall i, i <> k ->
         buffer o' i = buffer o i ++ filed tv i (instances j (original_stream o))) /\
  (forall fuel n fs ts o',
     next_sample fuel n o = (Done (fs, ts), o') ->
     exists tv j,
       target_values o = Some tv /\ length fs = length ts /\
       original_stream o' = after_pulls j (original_stream o) /\
       forall i, buffer o i ++ filed tv i (instances j (original_stream o))
                 = filed tv i (zip fs ts) ++ buffer o' i).
Proof.
  intros Hreach. destruct (reachable_invariant o Hreach) as [Hprep Hsorted].
  pose proof Hprep as (tv & bufs & rng & Htv & Hb & Hrng & Hlen). split.
  - intros fuel xy o' Hf Hrun Hf'.
    eapply draw_spec in Hrun as
      [(e & rng' & _ & [=] & _)|(k & rng' & j & o1 & Hch & Hk & Hp & Hj & Hr)];
      eauto.
    destruct Hr as [(Hf1 & _ & -> & _)|(_ & _ & p & rest & bufs1 & Hb1 & Hbk & -> & ->)].
    { simpl in Hf'. congruence. }
    assert (buffers_sorted o1) as Hsorted1.
    { eapply pulled_sorted; [| |exact Hp]; [exact Htv | exact Hsorted]. }
    assert (target_values o1 = Some tv /\
            original_stream o1 = after_pulls j (original_stream o) /\
            forall i, buffer o1 i
                      = buffer o i ++ filed tv i (instances j (original_stream o)))
      as (Htv1 & Hs1 & Hbuf1).
    { destruct Hp as (? & (_ & Ht & _) & _ & _ & ? & _).
      split; [rewrite Ht; exact Htv | auto]. }
    pose proof (buffer_after_pop o1 bufs1 k p rest (Some (fst p)) (Some (snd p))
                  Hb1 Hbk) as Hpop.
    exists tv, rng, k, rng', j, p. repeat (split; [assumption || reflexivity|]).
    split.
    { apply (Hsorted1 tv k p Htv1). unfold buffer. rewrite Hb1, Hbk.
      apply list_elem_of_here. }
    split; [exact Hs1|]. split.
    + rewrite <- Hbuf1, (Hpop k). rewrite decide_True by reflexivity. reflexivity.
    + intros i Hne. rewrite <- Hbuf1, (Hpop i).
      rewrite decide_False by congruence. reflexivity.
  - intros fuel n fs ts o' Hrun. unfold next_sample in Hrun.
    rewrite next_sample_loop_draws in Hrun.
    destruct (draws fuel n o) as [[rs|e|] o2] eqn:Hd; try discriminate.
    injection Hrun as <- <- <-.
    destruct (draws_effect _ _ _ _ _ _ Htv Hprep Hsorted Hd)
      as (j & out & Hs & _ & _ & _ & Hbuf & Hout & _).
    rewrite (Hout rs eq_refl) in Hbuf.
    exists tv, j. split; [exact Htv|]. simpl.
    split; [by rewrite !length_map|]. split; [exact Hs|].
    intros i. rewrite zip_fst_snd. apply Hbuf.
Qed.

(** ** When a draw returns *)

Lemma _next_individual_sample_unfold (fuel : nat) (o : Obj)
    (tv : list label) (rng rng' : R) (k : nat) :
  target_values o = Some tv -> _random_state o = Some rng ->
  choice rng (length tv) (ratio o) = (inr k, rng') ->
  _next_individual_sample fuel o =
    match while fuel (buffer_is_empty k) fill_step (advance_engine rng' o) with
    | (Done _, o1) => hand_out k o1
    | (Raised e, o1) => (Raised e, o1)
    | (OutOfFuel, o1) => (OutOfFuel, o1)
    end.
Proof.
  intros Htv Hrng Hch. unfold _next_individual_sample, bind at 1.
  rewrite (draw_index_class_cases o tv rng Htv Hrng), Hch.
  unfold bind at 1. destruct (while fuel _ _ _) as [[[]|e|] o1]; reflexivity.
Qed.

Lemma while_fill_nonempty (fuel k : nat) (o : Obj) bufs q b :
  instance_buffer o = Some bufs -> bufs !! k = Some (q :: b) ->
  while fuel (buffer_is_empty k) fill_step o = (Done tt, o).
Proof. intros Hb Hbk. rewrite while_fill_unfold, Hb, Hbk. reflexivity. Qed.

(** The loop ends when the wrapped stream, after [d] pulls with known labels,
    gives an instance of the drawn class or nothing. *)
Lemma fill_terminates (k : nat) (tv : list label) (d : nat) :
  forall o : Obj,
  target_values o = Some tv ->
  (exists bufs, instance_buffer o = Some bufs /\ length bufs = length tv) ->
  k < length tv ->
  (forall j p, j < d ->
     instance_of (fst (stream_next_sample (after_pulls j (original_stream o)))) = Some p ->
     snd p ∈ tv) ->
  match instance_of (fst (stream_next_sample (after_pulls d (original_stream o)))) with
  | Some p => class_index tv p = Some k
  | None => True
  end ->
  exists o', forall fuel, d < fuel ->
    while fuel (buffer_is_empty k) fill_step o = (Done tt, o').
Proof.
  induction d as [|d IH]; intros o Htv (bufs & Hb & Hlen) Hk Hknown Hgoal;
    (destruct (bufs !! k) as [[|q b]|] eqn:Hbk;
     [| exists o; intros fuel _; by eapply while_fill_nonempty
      | apply lookup_ge_None in Hbk; lia]).
  - simpl in Hgoal.
    destruct (instance_of _) as [p|] eqn:Hinst.
    + destruct (lookup_lt_is_Some_2 bufs k) as [b0 Hb0]; [lia|].
      eexists. intros [|fuel] Hfuel; [lia|].
      rewrite while_fill_unfold, Hb, Hbk, fill_step_cases. cbv zeta.
      rewrite Hinst, Htv, Hgoal, Hb, Hb0.
      eapply while_fill_nonempty; simpl; [reflexivity|].
      rewrite list_lookup_insert_eq by lia. rewrite Hbk in Hb0.
      injection Hb0 as <-. reflexivity.
    + eexists. intros [|fuel] Hfuel; [lia|].
      rewrite while_fill_unfold, Hb, Hbk, fill_step_cases. cbv zeta.
      rewrite Hinst. reflexivity.
  - destruct (instance_of (fst (stream_next_sample (original_stream o))))
      as [p|] eqn:Hinst.
    + assert (snd p ∈ tv) as Hp by (apply (Hknown 0 p); [lia | exact Hinst]).
      apply class_index_elem_of in Hp as [i0 Hci].
      destruct (class_index_Some _ _ _ Hci) as [Hi0 _].
      destruct (lookup_lt_is_Some_2 bufs i0) as [b0 Hb0]; [lia|].
      destruct (IH (set_instance_buffer (<[i0 := b0 ++ [p]]> bufs)
                      (set_original_stream
                         (snd (stream_next_sample (original_stream o))) o)))
        as [o' Ho']; simpl; try assumption.
      { eexists. split; [reflexivity|]. by rewrite length_insert. }
      { intros j p' Hj. apply (Hknown (S j) p'). lia. }
      exists o'. intros [|fuel] Hfuel; [lia|].
      rewrite while_fill_unfold, Hb, Hbk, fill_step_cases. cbv zeta.
      rewrite Hinst, Htv, Hci, Hb, Hb0. apply Ho'. lia.
    + eexists. intros [|fuel] Hfuel; [lia|].
      rewrite while_fill_unfold, Hb, Hbk, fill_step_cases. cbv zeta.
      rewrite Hinst. reflexivity.
Qed.

Lemma hand_out_cases (k : nat) (o1 : Obj) bufs1 :
  instance_buffer o1 = Some bufs1 ->
  no_more_samples o1 = true \/ (exists p rest, bufs1 !! k = Some (p :: rest)) ->
  exists xy o', hand_out k o1 = (Done xy, o').
Proof.
  intros Hb1 Hcase. unfold hand_out, buffer_pop0. py_unfold. simpl.
  destruct (no_more_samples o1) eqn:Hf; simpl; [eauto|].
  destruct Hcase as [?|(p & rest & Hbk)]; [discriminate|].
  rewrite Hb1. simpl. rewrite Hbk. simpl. eauto.
Qed.

Lemma labels_known_after (s : W) (tv : list label) (j : nat) :
  labels_known s tv -> labels_known (after_pulls j s) tv.
Proof.
  intros Hknown i p. rewrite <- after_pulls_add. apply Hknown.
Qed.

Lemma serves_every_class_after (s : W) (tv : list label) (j : nat) :
  serves_every_class s tv -> serves_every_class (after_pulls j s) tv.
Proof.
  intros Hserves i k Hk. destruct (Hserves (j + i) k Hk) as [d Hd].
  exists d. rewrite <- after_pulls_add, Nat.add_assoc. exact Hd.
Qed.

Lemma exhausted_after (s : W) (j : nat) :
  exhausted s -> exhausted (after_pulls j s).
Proof. intros Hex i. rewrite <- after_pulls_add. apply Hex. Qed.

(** A draw returns, given more than [d] iterations, when the engine draws
    [k] and the wrapped stream, after [d] pulls with known labels, gives an
    instance of class [k] or nothing. *)
Lemma draw_terminates_core (o : Obj) (tv : list label) (rng rng' : R) (k d : nat) :
  target_values o = Some tv ->
  (exists bufs, instance_buffer o = Some bufs /\ length bufs = length tv) ->
  _random_state o = Some rng ->
  choice rng (length tv) (ratio o) = (inr k, rng') ->
  labels_known (original_stream o) tv ->
  match instance_of (fst (stream_next_sample (after_pulls d (original_stream o)))) with
  | Some p => class_index tv p = Some k
  | None => True
  end ->
  exists xy o', forall fuel, d < fuel ->
    _next_individual_sample fuel o = (Done xy, o').
Proof.
  intros Htv Hbufs Hrng Hch Hknown Hd.
  pose proof (choice_range _ _ _ _ _ Hch) as Hk.
  destruct (fill_terminates k tv d (advance_engine rng' o)) as [o1 Ho1];
    simpl; try assumption; [intros j p _; apply Hknown|].
  pose proof (Ho1 (S d) (Nat.lt_succ_diag_r d)) as Hloop.
  apply (fill_loop_spec k tv) in Hloop as (j & Hp & _ & Hr); simpl; eauto.
  destruct Hp as (_ & _ & _ & (bufs1 & Hb1 & Hlen1) & _).
  destruct (hand_out_cases k o1 bufs1 Hb1) as (xy & o' & Hout).
  { destruct Hr as [[_ Hne]|[Hf _]]; [right | by left].
    unfold buffer in Hne. rewrite Hb1 in Hne.
    destruct (bufs1 !! k) as [[|p rest]|]; simpl in Hne; try congruence. eauto. }
  exists xy, o'. intros fuel Hfuel.
  rewrite (_next_individual_sample_unfold fuel o tv rng rng' k Htv Hrng Hch).
  rewrite Ho1 by lia. exact Hout.
Qed.

Lemma draw_terminates (o : Obj) (tv : list label) :
  target_values o = Some tv -> prepared o ->
  engine_accepts (length tv) (ratio o) ->
  labels_known (original_stream o) tv ->
  serves_every_class (original_stream o) tv ->
  exists fuel0 xy o', forall fuel, fuel0 <= fuel ->
    _next_individual_sample fuel o = (Done xy, o').
Proof.
  intros Htv (tv' & bufs & rng & Htv' & Hb & Hrng & Hlen) Hacc Hknown Hserves.
  rewrite Htv in Htv'. injection Htv' as <-.
  destruct (Hacc rng) as (k & rng' & Hch).
  pose proof (choice_range _ _ _ _ _ Hch) as Hk.
  destruct (Hserves 0 k Hk) as [d Hd]. simpl in Hd.
  destruct (draw_terminates_core o tv rng rng' k d) as (xy & o' & Hrun);
    [exact Htv|eauto|exact Hrng|exact Hch|exact Hknown|exact Hd|].
  exists (S d), xy, o'. intros fuel Hfuel. apply Hrun. lia.
Qed.

Lemma exhausted_labels_known (s : W) (tv : list label) :
  exhausted s -> labels_known s tv.
Proof. intros Hex j p Hp. rewrite Hex in Hp. discriminate. Qed.

Lemma draw_when_exhausted (o : Obj) (tv : list label) :
  target_values o = Some tv -> prepared o ->
  engine_accepts (length tv) (ratio o) ->
  exhausted (original_stream o) ->
  exists xy o', forall fuel,
    _next_individual_sample (S fuel) o = (Done xy, o').
Proof.
  intros Htv (tv' & bufs & rng & Htv' & Hb & Hrng & Hlen) Hacc Hex.
  rewrite Htv in Htv'. injection Htv' as <-.
  destruct (Hacc rng) as (k & rng' & Hch).
  destruct (draw_terminates_core o tv rng rng' k 0) as (xy & o' & Hrun);
    [exact Htv|eauto|exact Hrng|exact Hch|by apply exhausted_labels_known
    |pose proof (Hex 0) as H0; simpl in H0; simpl; by rewrite H0|].
  exists xy, o'. intros fuel. apply Hrun. lia.
Qed.

(** [n] draws return, given enough iterations, under the same conditions. *)
Lemma draws_terminate (tv : list label) (n : nat) :
  forall o : Obj,
  target_values o = Some tv -> prepared o -> buffers_sorted o ->
  engine_accepts (length tv) (ratio o) ->
  labels_known (original_stream o) tv ->
  serves_every_class (original_stream o) tv ->
  exists fuel0 rs o', forall fuel, fuel0 <= fuel ->
    draws fuel n o = (Done rs, o').
Proof.
  induction n as [|n IH]; intros o Htv Hprep Hsorted Hacc Hknown Hserves.
  - exists 0, [], o. reflexivity.
  - destruct (draw_terminates o tv Htv Hprep Hacc Hknown Hserves)
      as (fuel1 & xy & o1 & Hdraw).
    destruct (draw_effect _ _ _ _ _ Htv Hprep Hsorted (Hdraw fuel1 (le_n _)))
      as (j & Hs & (Hr & Ht & _) & Hprep1 & Hsorted1 & _).
    destruct (IH o1) as (fuel2 & rs & o' & Hrest);
      [by rewrite Ht|exact Hprep1|exact Hsorted1|by rewrite Hr
      |rewrite Hs; by apply labels_known_after
      |rewrite Hs; by apply serves_every_class_after|].
    exists (Nat.max fuel1 fuel2), (xy :: rs), o'. intros fuel Hfuel. simpl.
    unfold bind. rewrite Hdraw by lia. rewrite Hrest by lia. reflexivity.
Qed.

(** With the wrapped stream exhausted, one iteration per draw is enough. *)
Lemma draws_when_exhausted (tv : list label) (n : nat) :
  forall o : Obj,
  target_values o = Some tv -> prepared o -> buffers_sorted o ->
  engine_accepts (length tv) (ratio o) ->
  exhausted (original_stream o) ->
  exists rs o', forall fuel, draws (S fuel) n o = (Done rs, o').
Proof.
  induction n as [|n IH]; intros o Htv Hprep Hsorted Hacc Hex.
  - exists [], o. reflexivity.
  - destruct (draw_when_exhausted o tv Htv Hprep Hacc Hex) as (xy & o1 & Hdraw).
    destruct (draw_effect _ _ _ _ _ Htv Hprep Hsorted (Hdraw 0))
      as (j & Hs & (Hr & Ht & _) & Hprep1 & Hsorted1 & _).
    destruct (IH o1) as (rs & o' & Hrest);
      [by rewrite Ht|exact Hprep1|exact Hsorted1|by rewrite Hr
      |rewrite Hs; by apply exhausted_after|].
    exists (xy :: rs), o'. intros fuel. simpl.
    unfold bind. rewrite Hdraw, Hrest. reflexivity.
Qed.

(** ** After exhaustion *)

Lemma flagged_batch (fuel n : nat) (o : Obj) r o' :
  reachable o -> no_more_samples o = true ->
  next_sample fuel n o = (r, o') ->
  no_more_samples o' = true /\
  forall fs ts, r = Done (fs, ts) -> fs = [] /\ ts = [].
Proof.
  intros Hreach Hf Hrun.
  destruct (reachable_invariant o Hreach) as [Hprep Hsorted].
  pose proof Hprep as (tv & _ & _ & Htv & _).
  unfold next_sample in Hrun. rewrite next_sample_loop_draws in Hrun.
  destruct (draws fuel n o) as [r2 o2] eqn:Hd.
  destruct (draws_effect _ _ _ _ _ _ Htv Hprep Hsorted Hd)
    as (_ & out & _ & _ & _ & _ & _ & Hout & Hflag).
  destruct (Hflag Hf) as [Hf2 ->].
  destruct r2 as [rs|e|]; injection Hrun as <- <-;
    (split; [exact Hf2|]); try discriminate.
  intros fs ts [= <- <-]. rewrite <- (Hout rs eq_refl). auto.
Qed.

Lemma batches_when_exhausted (tv : list label) (ns : list nat) :
  forall o : Obj,
  reachable o -> no_more_samples o = true -> target_values o = Some tv ->
  engine_accepts (length tv) (ratio o) -> exhausted (original_stream o) ->
  exists o',
    (forall fuel,
       batches (S fuel) ns o = (Done (map (fun _ => ([], [])) ns), o')) /\
    reachable o' /\ no_more_samples o' = true /\
    exhausted (original_stream o').
Proof.
  induction ns as [|n ns IH]; intros o Hreach Hf Htv Hacc Hex.
  - exists o. auto.
  - destruct (reachable_invariant o Hreach) as [Hprep Hsorted].
    destruct (draws_when_exhausted tv n o Htv Hprep Hsorted Hacc Hex)
      as (rs & o1 & Hd).
    destruct (draws_effect _ _ _ _ _ _ Htv Hprep Hsorted (Hd 0))
      as (j & out & Hs & (Hr & Ht & _) & _ & _ & _ & Hout & Hflag).
    destruct (Hflag Hf) as [Hf1 ->].
    assert (forall fuel, next_sample (S fuel) n o = (Done ([], []), o1)) as Hb.
    { intros fuel. unfold next_sample.
      rewrite next_sample_loop_draws, Hd, <- (Hout rs eq_refl). reflexivity. }
    destruct (IH o1) as (o' & Hrest & Hreach' & Hf' & Hex');
      [by eapply reach_batch; [exact Hreach | apply (Hb 0)]
      |exact Hf1|by rewrite Ht|by rewrite Hr
      |rewrite Hs; by apply exhausted_after|].
    exists o'. split; [|auto].
    intros fuel. simpl. unfold bind. rewrite Hb, Hrest. reflexivity.
Qed.

(** C4: in a reachable object whose exhaustion flag is set, [has_more]
    answers false; a draw, however it ends, leaves the flag set and hands out
    nothing; so does a batch, and a batch that returns, returns two empty
    sequences, whatever its size.  Only preparation clears the flag.  When the
    engine draws and the wrapped stream has indeed nothing left to give, the
    batches do return: any sequence of batches of any sizes returns two empty
    sequences each time, with one loop iteration per draw. *)
Theorem exhaustion_is_final (o : Obj) :
  reachable o -> no_more_samples o = true ->
  has_more_samples o = (Done false, o) /\
  (forall fuel r o',
     _next_individual_sample fuel o = (r, o') ->
     no_more_samples o' = true /\ served r = []) /\
  (forall fuel n r o',
     next_sample fuel n o = (r, o') ->
     no_more_samples o' = true /\
     forall fs ts, r = Done (fs, ts) -> fs = [] /\ ts = []) /\
  (forall tv,
     target_values o = Some tv ->
     engine_accepts (length tv) (ratio o) -> exhausted (original_stream o) ->
     forall ns, exists o',
       (forall fuel,
          batches (S fuel) ns o = (Done (map (fun _ => ([], [])) ns), o')) /\
       no_more_samples o' = true).
Proof.
  intros Hreach Hf.
  destruct (reachable_invariant o Hreach) as [Hprep Hsorted].
  pose proof Hprep as (tv & _ & _ & Htv & _).
  split; [|split; [|split]].
  - rewrite has_more_samples_unfold, Hf, andb_false_r. reflexivity.
  - intros fuel r o' Hrun.
    destruct (draw_effect _ _ _ _ _ Htv Hprep Hsorted Hrun)
      as (_ & _ & _ & _ & _ & _ & Hflag & _). by apply Hflag.
  - intros fuel n r o'. by apply flagged_batch.
  - intros tv' Htv' Hacc Hex ns.
    destruct (batches_when_exhausted tv' ns o Hreach Hf Htv' Hacc Hex)
      as (o' & Hrun & _ & Hf' & _).
    exists o'. auto.
Qed.

(** ** A batch *)

(** C5, as the code has it: a batch is [n] draws in a row and ends as they
    end, so an error of a draw is the batch's error.  In a reachable object
    whose engine draws for the ratio and whose wrapped stream gives only
    registry labels and, from every point on, sooner or later an instance of
    each class or nothing, the [n] draws all return (given enough loop
    iterations), and the batch returns the features and the labels of the
    results that are not the sentinel, in the order drawn: two sequences of
    the same length, at most [n]. *)
Theorem batch_returns (o : Obj) (tv : list label) (n : nat) :
  reachable o -> target_values o = Some tv ->
  engine_accepts (length tv) (ratio o) ->
  labels_known (original_stream o) tv ->
  serves_every_class (original_stream o) tv ->
  (forall fuel,
     next_sample fuel n o =
       match draws fuel n o with
       | (Done rs, o') => (Done (map fst (kept rs), map snd (kept rs)), o')
       | (Raised e, o') => (Raised e, o')
       | (OutOfFuel, o') => (OutOfFuel, o')
       end) /\
  exists fuel0 rs o',
    length rs = n /\
    length (map fst (kept rs)) = length (map snd (kept rs)) /\
    length (map fst (kept rs)) <= n /\
    forall fuel, fuel0 <= fuel ->
      draws fuel n o = (Done rs, o') /\
      next_sample fuel n o = (Done (map fst (kept rs), map snd (kept rs)), o').
Proof.
  intros Hreach Htv Hacc Hknown Hserves.
  destruct (reachable_invariant o Hreach) as [Hprep Hsorted].
  assert (forall fuel,
            next_sample fuel n o =
              match draws fuel n o with
              | (Done rs, o') => (Done (map fst (kept rs), map snd (kept rs)), o')
              | (Raised e, o') => (Raised e, o')
              | (OutOfFuel, o') => (OutOfFuel, o')
              end) as Hbatch.
  { intros fuel. unfold next_sample. by rewrite next_sample_loop_draws. }
  split; [exact Hbatch|].
  destruct (draws_terminate tv n o Htv Hprep Hsorted Hacc Hknown Hserves)
    as (fuel0 & rs & o' & Hd).
  pose proof (draws_length _ _ _ _ _ (Hd fuel0 (le_n _))) as Hlen.
  exists fuel0, rs, o'. split; [exact Hlen|].
  split; [by rewrite !length_map|].
  split; [rewrite length_map, <- Hlen; apply kept_length|].
  intros fuel Hfuel. split; [by apply Hd|].
  rewrite Hbatch, Hd by exact Hfuel. reflexivity.
Qed.

(** ** Labels outside the registry *)

(** When every label the wrapped stream gives is in the registry, the
    registry lookup of the loop does not fail: an error of a draw is the
    engine's. *)
Lemma lookup_total_when_labels_known (o : Obj) (tv : list label)
    (fuel : nat) (e : exn) (o' : Obj) :
  prepared o -> target_values o = Some tv ->
  labels_known (original_stream o) tv ->
  _next_individual_sample fuel o = (Raised e, o') ->
  exists rng rng',
    _random_state o = Some rng /\
    choice rng (length tv) (ratio o) = (inl e, rng').
Proof.
  intros (tv' & bufs & rng & Htv' & Hb & Hrng & Hlen) Htv Hknown Hrun.
  rewrite Htv in Htv'. injection Htv' as <-.
  eapply draw_spec in Hrun as
    [(e' & rng' & Hch & [= <-] & _)
    |(k & rng' & j & o1 & _ & _ & _ & _ & _ & _ & j' & p & _ & Hp & Hci)];
    eauto.
  apply Hknown, class_index_elem_of in Hp as [i Hi]. congruence.
Qed.

End Properties.

(** * The properties on recorded runs *)

(** Run both sides and compare. *)
Ltac run := vm_compute; reflexivity.

Lemma configuration_error_iff_witness :
  stream_n_targets (stream_prepare_for_use (original_stream balanced)) = 1%Z /\
  ((accepted (ratio balanced)
      (length (stream_target_values
                 (stream_prepare_for_use (original_stream balanced)))) ->
    fst (prepare_for_use balanced) = Done tt) /\
   (violating (ratio balanced)
      (length (stream_target_values
                 (stream_prepare_for_use (original_stream balanced)))) ->
    exists e, ConfigurationError e /\ fst (prepare_for_use balanced) = Raised e) /\
   (fst (prepare_for_use balanced) = Done tt \/
    exists e, ConfigurationError e /\ fst (prepare_for_use balanced) = Raised e)).
Proof.
  split; [run | apply (configuration_error_iff balanced); run].
Defined.

(** The ratio [(numpy.float32(0.5), numpy.float32(0.5))] meets the four listed
    conditions (a tuple, one entry per class, every entry a floating-point
    number, sum 1.0), and preparation raises a configuration error: the
    validator takes [float] and [numpy.float64] only. *)
Lemma float32_rejected :
  listed_conditions single_precision 2 /\
  exists o', prepare_for_use (resampler_with single_precision)
             = (Raised (ValueError type_msg), o') /\
             ConfigurationError (ValueError type_msg).
Proof.
  split.
  - exists [NpFloat32 0.5; NpFloat32 0.5].
    split; [run|]. split; [run|]. split; [|run].
    constructor; [right; right; run|].
    constructor; [right; right; run|]. constructor.
  - eexists. split; [run|]. right. right. left. run.
Qed.

(** The two homogeneous forms of [(0.5, 0.5)] pass the validator; the form
    with one [float] and one [numpy.float64] raises. *)
Example mixed_floats_raise :
  fst (prepare_for_use (resampler_with (PyTuple [PyFloat 0.5; PyFloat 0.5])))
  = Done tt /\
  fst (prepare_for_use (resampler_with (PyTuple [NpFloat64 0.5; NpFloat64 0.5])))
  = Done tt /\
  fst (prepare_for_use (resampler_with mixed_floats))
  = Raised (ValueError type_msg).
Proof. repeat apply conj; run. Qed.

(** The sum test on a few tuples: float64 additions from left to right, the
    product with [1e6] rounded to the nearest integer, the quotient compared
    with 1.0. *)
Example sum_test_examples :
  rounded_sum_is_one [PyFloat 0.9; PyFloat 0.1] /\
  rounded_sum_is_one [PyFloat 0.3; PyFloat 0.3; PyFloat 0.4000004] /\
  ~ rounded_sum_is_one [PyFloat 0.5; PyFloat 0.5000005] /\
  ~ rounded_sum_is_one [PyFloat 1; PyFloat 1e16; PyFloat (-1e16)] /\
  rounded_sum_is_one [PyFloat 1e16; PyFloat 1; PyFloat (-1e16); PyFloat 1] /\
  rounded_sum_is_one (replicate 10 (NpFloat64 0.1)) /\
  ~ rounded_sum_is_one [PyFloat nan; PyFloat 1] /\
  ~ rounded_sum_is_one [].
Proof.
  unfold rounded_sum_is_one.
  repeat apply conj; try run; intros H; vm_compute in H; discriminate.
Qed.

Lemma schema_error_before_any_pull_witness :
  stream_n_targets (stream_prepare_for_use (original_stream multilabel)) <> 1%Z /\
  exists e o',
    prepare_for_use multilabel = (Raised e, o') /\ UnsupportedSchemaError e /\
    original_stream o' = stream_prepare_for_use (original_stream multilabel) /\
    instance_buffer o' = instance_buffer multilabel /\
    no_more_samples o' = no_more_samples multilabel.
Proof.
  split; [discriminate | apply (schema_error_before_any_pull multilabel); discriminate].
Defined.

Example after_one_draw_buffers :
  instance_buffer after_one_draw = Some [[(10, 0)]; []].
Proof. run. Qed.

Lemma restart_resets_witness :
  restart after_one_draw = (Done tt, snd (restart after_one_draw)) /\
  (restart after_one_draw =
     _prepare_for_use
       (set_original_stream (stream_restart (original_stream after_one_draw))
          after_one_draw) /\
   original_stream (snd (restart after_one_draw))
     = stream_restart (original_stream after_one_draw) /\
   all_buffers_empty (snd (restart after_one_draw)) /\
   (forall i, buffer (snd (restart after_one_draw)) i = []) /\
   no_more_samples (snd (restart after_one_draw)) = false).
Proof.
  split; [run | apply (restart_resets after_one_draw); run].
Defined.

Lemma failed_preparation_state_witness :
  (prepare_for_use rejected
     = (Raised (ValueError type_msg), snd (prepare_for_use rejected)) \/
   restart rejected
     = (Raised (ValueError type_msg), snd (prepare_for_use rejected))) /\
  ((forall o1 : Resampler, snd (_check_errors o1) = o1) /\
   (ConfigurationError (ValueError type_msg) \/
    UnsupportedSchemaError (ValueError type_msg)) /\
   (ConfigurationError (ValueError type_msg) ->
      all_buffers_empty (snd (prepare_for_use rejected)) /\
      no_more_samples (snd (prepare_for_use rejected)) = false /\
      has_more_samples (snd (prepare_for_use rejected)) =
        (Done (stream_has_more_samples
                 (original_stream (snd (prepare_for_use rejected)))),
         snd (prepare_for_use rejected))) /\
   (UnsupportedSchemaError (ValueError type_msg) ->
      instance_buffer (snd (prepare_for_use rejected)) = instance_buffer rejected /\
      target_values (snd (prepare_for_use rejected)) = target_values rejected /\
      no_more_samples (snd (prepare_for_use rejected)) = no_more_samples rejected /\
      has_more_samples (snd (prepare_for_use rejected)) =
        (Done (stream_has_more_samples
                 (original_stream (snd (prepare_for_use rejected)))
               && negb (no_more_samples rejected)),
         snd (prepare_for_use rejected)))).
Proof.
  split; [left; run|].
  apply (failed_preparation_state rejected). left; run.
Defined.

(** Preparing with the ratio [(0.5, numpy.float64(0.5))] raises a
    configuration error, and afterwards [has_more] answers true and a batch of
    one returns an instance. *)
Lemma failed_preparation_still_samples :
  exists e o',
    prepare_for_use rejected = (Raised e, o') /\
    ConfigurationError e /\
    fst (has_more_samples o') = Done true /\
    fst (next_sample 10 1 o') = Done ([11], [1]).
Proof.
  eexists _, _. split; [run|].
  split; [right; right; left; run|]. split; run.
Qed.

(** C10: the ratio [(1.5, -0.5)] is a tuple of floats whose sum rounds to 1.0,
    with one entry above 1.0 and one below 0.0; validation passes on it and
    preparation succeeds. *)
Theorem no_range_check :
  exists (o : Resampler) (items : list pyval),
    ratio o = PyTuple items /\
    Forall (fun v => type v = T_float) items /\
    rounded_sum_is_one items /\
    Exists (fun v => exists x, v = PyFloat x /\ (x <? 0)%float = true) items /\
    Exists (fun v => exists x, v = PyFloat x /\ (1 <? x)%float = true) items /\
    fst (_check_errors (snd (prepare_for_use o))) = Done tt /\
    fst (prepare_for_use o) = Done tt.
Proof.
  exists (resampler_with out_of_range), [PyFloat 1.5; PyFloat (-0.5)].
  split; [run|]. split; [repeat constructor|].
  split; [run|].
  split; [right; left; eexists; split; [reflexivity | run]|].
  split; [left; eexists; split; [reflexivity | run]|]. split; run.
Qed.

(** ** The scripted collaborators behave *)

Lemma scripted_to_come_after (j : nat) (s : scripted_stream) :
  to_come (after_pulls j s) = drop j (to_come s).
Proof.
  revert s. induction j as [|j IH]; intros s; simpl.
  - by rewrite drop_0.
  - rewrite IH. unfold scripted_next.
    destruct (to_come s) as [|inst rest] eqn:E; simpl; [|reflexivity].
    rewrite E. by rewrite drop_nil.
Qed.

Lemma scripted_pull (j : nat) (s : scripted_stream) :
  fst (stream_next_sample (after_pulls j s)) = default ([], []) (to_come s !! j).
Proof.
  simpl. unfold scripted_next. rewrite scripted_to_come_after.
  rewrite <- (Nat.add_0_r j) at 2. rewrite <- lookup_drop.
  destruct (drop j (to_come s)); reflexivity.
Qed.

Lemma scripted_exhausted (s : scripted_stream) :
  to_come s = [] -> exhausted s.
Proof. intros E j. rewrite scripted_pull, E. reflexivity. Qed.

Lemma scripted_serves_every_class (s : scripted_stream) (tv : list nat) :
  serves_every_class s tv.
Proof.
  intros j k _. exists (length (to_come s)). rewrite scripted_pull.
  rewrite lookup_ge_None_2 by lia. exact I.
Qed.

Lemma scripted_engine_accepts (n : nat) (p : pyobj) :
  0 < n -> engine_accepts (R := list nat) n p.
Proof.
  intros Hn rng. destruct n as [|n]; [lia|].
  destruct rng as [|k rest]; simpl; eauto.
Qed.

Lemma three_instances_labels_known : labels_known three_instances [0; 1].
Proof.
  intros j p. rewrite scripted_pull.
  destruct j as [|[|[|j]]]; simpl; try discriminate;
    intros [= <-]; simpl; repeat constructor.
Qed.

Lemma ready_reachable : reachable ready.
Proof. apply (reach_prepare balanced); run. Qed.

Lemma after_one_draw_reachable : reachable after_one_draw.
Proof.
  apply (reach_batch ready 10 1 (Done ([11], [1]))); [exact ready_reachable|].
  run.
Qed.

Lemma drained_reachable : reachable drained.
Proof.
  apply (reach_batch ready 10 4 (Done ([11; 10; 12], [1; 0; 0])));
    [exact ready_reachable | run].
Qed.

(** ** Draws and batches on recorded runs *)

Example ready_batch :
  fst (next_sample 10 4 ready) = Done ([11; 10; 12], [1; 0; 0]).
Proof. run. Qed.

Lemma draw_serves_front_witness :
  reachable ready /\
  ((forall fuel xy o',
      no_more_samples ready = false ->
      _next_individual_sample fuel ready = (Done xy, o') ->
      no_more_samples o' = false ->
      exists tv rng k rng' j p,
        target_values ready = Some tv /\ _random_state ready = Some rng /\
        choice rng (length tv) (ratio ready) = (inr k, rng') /\
        xy = (Some (fst p), Some (snd p)) /\ tv !! k = Some (snd p) /\
        original_stream o' = after_pulls j (original_stream ready) /\
        buffer ready k ++ filed tv k (instances j (original_stream ready))
          = p :: buffer o' k /\
        forall i, i <> k ->
          buffer o' i
          = buffer ready i ++ filed tv i (instances j (original_stream ready))) /\
   (forall fuel n fs ts o',
      next_sample fuel n ready = (Done (fs, ts), o') ->
      exists tv j,
        target_values ready = Some tv /\ length fs = length ts /\
        original_stream o' = after_pulls j (original_stream ready) /\
        forall i, buffer ready i ++ filed tv i (instances j (original_stream ready))
                  = filed tv i (zip fs ts) ++ buffer o' i)).
Proof.
  split; [exact ready_reachable | apply (draw_serves_front ready)].
  exact ready_reachable.
Defined.

Lemma buffers_hold_their_class_witness :
  reachable after_one_draw /\
  ((exists tv bufs,
      target_values after_one_draw = Some tv /\
      instance_buffer after_one_draw = Some bufs /\
      length bufs = length tv /\
      forall i buf p, bufs !! i = Some buf -> p ∈ buf -> tv !! i = Some (snd p)) /\
   (forall fuel r o',
      _next_individual_sample fuel after_one_draw = (r, o') ->
      exists tv j,
        target_values after_one_draw = Some tv /\ target_values o' = Some tv /\
        original_stream o' = after_pulls j (original_stream after_one_draw) /\
        forall i,
          buffer after_one_draw i
            ++ filed tv i (instances j (original_stream after_one_draw))
          = filed tv i (served r) ++ buffer o' i)).
Proof.
  split; [exact after_one_draw_reachable|].
  apply (buffers_hold_their_class after_one_draw).
  exact after_one_draw_reachable.
Defined.

Lemma exhaustion_is_final_witness :
  (reachable drained /\ no_more_samples drained = true) /\
  (has_more_samples drained = (Done false, drained) /\
   (forall fuel r o',
      _next_individual_sample fuel drained = (r, o') ->
      no_more_samples o' = true /\ served r = []) /\
   (forall fuel n r o',
      next_sample fuel n drained = (r, o') ->
      no_more_samples o' = true /\
      forall fs ts, r = Done (fs, ts) -> fs = [] /\ ts = []) /\
   (forall tv,
      target_values drained = Some tv ->
      engine_accepts (length tv) (ratio drained) ->
      exhausted (original_stream drained) ->
      forall ns, exists o',
        (forall fuel,
           batches (S fuel) ns drained
           = (Done (map (fun _ => ([], [])) ns), o')) /\
        no_more_samples o' = true)).
Proof.
  split; [split; [exact drained_reachable | run]|].
  apply (exhaustion_is_final drained); [exact drained_reachable | run].
Defined.

(** The conditions under which the batches of [drained] return hold, and two
    batches in a row, of sizes 3 and 2, return empty. *)
Example drained_batches :
  engine_accepts (R := list nat) 2 (ratio drained) /\
  exhausted (original_stream drained) /\
  fst (batches 1 [3; 2] drained) = Done [([], []); ([], [])].
Proof.
  split; [apply scripted_engine_accepts; lia|].
  split; [by apply scripted_exhausted | run].
Qed.

(** A reachable resampler with the flag set whose batch of one raises: the
    wrapped stream gave an empty pull and then resumed with an instance
    labelled 7, and the draw, for a class with an empty buffer, pulled it. *)
Lemma flagged_batch_raises :
  reachable resumed /\ no_more_samples resumed = true /\
  forall fuel,
    fst (next_sample (S fuel) 1 resumed) = Raised (ValueError not_in_list).
Proof.
  split.
  - apply (reach_batch (snd (prepare_for_use resuming_given)) 10 1
             (Done ([], []))); [apply (reach_prepare resuming_given); run | run].
  - split; [run | intros fuel; run].
Qed.

(** An engine given to the constructor is the engine the object draws from:
    preparing again (here by [restart]) goes on with it where the draws left
    it, while an int seed starts its engine afresh. *)
Example restart_and_the_engine :
  _random_state on_engine = Some [0; 0; 1] /\
  _random_state (snd (restart on_engine)) = Some [0; 0; 1] /\
  _random_state after_one_draw = Some [0; 0; 1] /\
  _random_state (snd (restart after_one_draw)) = Some [1; 0; 0; 1].
Proof. repeat apply conj; run. Qed.

Lemma batch_returns_witness :
  (reachable ready /\ target_values ready = Some [0; 1] /\
   engine_accepts (length [0; 1]) (ratio ready) /\
   labels_known (original_stream ready) [0; 1] /\
   serves_every_class (original_stream ready) [0; 1]) /\
  ((forall fuel,
      next_sample fuel 4 ready =
        match draws fuel 4 ready with
        | (Done rs, o') => (Done (map fst (kept rs), map snd (kept rs)), o')
        | (Raised e, o') => (Raised e, o')
        | (OutOfFuel, o') => (OutOfFuel, o')
        end) /\
   exists fuel0 rs o',
     length rs = 4 /\
     length (map fst (kept rs)) = length (map snd (kept rs)) /\
     length (map fst (kept rs)) <= 4 /\
     forall fuel, fuel0 <= fuel ->
       draws fuel 4 ready = (Done rs, o') /\
       next_sample fuel 4 ready
       = (Done (map fst (kept rs), map snd (kept rs)), o')).
Proof.
  assert (engine_accepts (R := list nat) (length [0; 1]) (ratio ready)) as Hacc
    by (apply scripted_engine_accepts; simpl; lia).
  split.
  - split; [exact ready_reachable|]. split; [run|].
    split; [exact Hacc|].
    split; [exact three_instances_labels_known|].
    apply scripted_serves_every_class.
  - apply (batch_returns ready [0; 1] 4);
      [exact ready_reachable | run | exact Hacc
      | exact three_instances_labels_known
      | apply scripted_serves_every_class].
Defined.

(** A prepared resampler with a valid configuration (ratio [(0.5, 0.5)] over
    two classes) whose batch of one raises: the wrapped stream's second
    instance carries the label 7. *)
Lemma batch_raises_on_stray_label :
  fst (prepare_for_use stray_label_given) = Done tt /\
  accepted (ratio stray_label) 2 /\
  reachable stray_label /\
  forall fuel,
    fst (next_sample (S (S fuel)) 1 stray_label)
    = Raised (ValueError not_in_list).
Proof.
  split; [run|]. split.
  - exists [PyFloat 0.5; PyFloat 0.5].
    split; [run|]. split; [run|].
    split; [left; repeat constructor | run].
  - split; [apply (reach_prepare stray_label_given); run|].
    intros fuel. run.
Qed.

(** C9: when every class value the wrapped stream produces is in the
    registry, the registry lookup of the buffer-fill loop cannot fail (an
    error of a draw is then the random engine's own); and there is a prepared
    resampler whose wrapped stream gives a label outside the registry, on
    which the draw raises the lookup's [ValueError], with the exhaustion flag
    still clear and the instance in no buffer. *)
Theorem registry_lookup_needs_known_labels :
  (forall (feat label seed W R : Type) `{EqDecision label}
          `{!Stream feat label W} `{!RandomState seed R}
          (o : ImbalancedStream feat label seed W R) (tv : list label)
          (fuel : nat) (e : exn) o',
     prepared o -> target_values o = Some tv ->
     labels_known (original_stream o) tv ->
     _next_individual_sample fuel o = (Raised e, o') ->
     exists rng rng',
       _random_state o = Some rng /\
       choice rng (length tv) (ratio o) = (inl e, rng')) /\
  (exists (o : Resampler) (tv : list nat) o',
     reachable o /\ target_values o = Some tv /\
     ~ labels_known (original_stream o) tv /\
     (forall fuel,
        _next_individual_sample (S (S fuel)) o
        = (Raised (ValueError not_in_list), o')) /\
     no_more_samples o' = false /\
     instance_buffer o' = Some [[(10, 0)]; []] /\
     to_come (original_stream o') = [([12], [1])]).
Proof.
  split.
  - intros feat label seed W R Heq Hstream Hrng o tv fuel e o'.
    apply lookup_total_when_labels_known.
  - exists stray_label, [0; 1], (snd (_next_individual_sample 2 stray_label)).
    split; [apply (reach_prepare stray_label_given); run|].
    split; [run|]. split.
    + intros Hknown. specialize (Hknown 1 (11, 7) eq_refl).
      simpl in Hknown. rewrite !elem_of_cons, elem_of_nil in Hknown.
      intuition discriminate.
    + split; [intros fuel; run|]. repeat split.
Qed.

(** * Further properties of the methods *)

Section More.

Context {feat label seed W R : Type}.
Context `{EqDecision label}.
Context `{!Stream feat label W} `{!RandomState seed R}.

Abbreviation Obj' := (ImbalancedStream feat label seed W R).

Local Open Scope py_scope.

(** X1: when the flag is clear and the buffer of the drawn class holds an
    instance, the draw returns the front of that buffer at once: it pulls
    nothing from the wrapped stream (whatever [has_more_samples] would say),
    leaves the other buffers alone and records the pair as current sample. *)
Theorem draw_from_buffer (o : Obj') (tv : list label) (rng rng' : R) (k : nat)
    (bufs : list (list (feat * label))) (p : feat * label)
    (rest : list (feat * label)) (fuel : nat) :
  target_values o = Some tv -> _random_state o = Some rng ->
  instance_buffer o = Some bufs ->
  choice rng (length tv) (ratio o) = (inr k, rng') ->
  bufs !! k = Some (p :: rest) -> no_more_samples o = false ->
  exists o',
    _next_individual_sample fuel o = (Done (Some (fst p), Some (snd p)), o') /\
    original_stream o' = original_stream o /\
    instance_buffer o' = Some (<[k := rest]> bufs) /\
    no_more_samples o' = false /\ _random_state o' = Some rng' /\
    current_sample_x o' = Some (fst p) /\ current_sample_y o' = Some (snd p).
Proof.
  intros Htv Hrng Hb Hch Hbk Hf.
  rewrite (_next_individual_sample_unfold fuel o tv rng rng' k Htv Hrng Hch).
  rewrite (while_fill_nonempty fuel k (advance_engine rng' o) bufs p rest Hb Hbk).
  unfold hand_out, buffer_pop0, bind, get, modify, not_None, subscript, ret.
  simpl. rewrite Hf. simpl. rewrite Hb. simpl. rewrite Hbk. simpl.
  eexists. split; [reflexivity|]. repeat split. exact Hf.
Qed.

(** X2: when the buffer of the drawn class is empty and the wrapped stream's
    next pull holds no instance, the draw sets the exhaustion flag and returns
    the sentinel after that single pull; the buffers are left as they were,
    so what the other classes had buffered stays there. *)
Theorem draw_at_end_of_stream (o : Obj') (tv : list label) (rng rng' : R) (k : nat)
    (bufs : list (list (feat * label))) (fuel : nat) :
  target_values o = Some tv -> _random_state o = Some rng ->
  instance_buffer o = Some bufs ->
  choice rng (length tv) (ratio o) = (inr k, rng') ->
  bufs !! k = Some [] ->
  instance_of (fst (stream_next_sample (original_stream o))) = None ->
  exists o',
    _next_individual_sample (S fuel) o = (Done (None, None), o') /\
    no_more_samples o' = true /\
    original_stream o' = snd (stream_next_sample (original_stream o)) /\
    instance_buffer o' = Some bufs /\
    current_sample_x o' = None /\ current_sample_y o' = None.
Proof.
  intros Htv Hrng Hb Hch Hbk Hpull.
  rewrite (_next_individual_sample_unfold (S fuel) o tv rng rng' k Htv Hrng Hch).
  rewrite while_fill_unfold.
  change (instance_buffer (advance_engine rng' o)) with (instance_buffer o).
  rewrite Hb, Hbk, fill_step_cases. cbv zeta.
  change (original_stream (advance_engine rng' o)) with (original_stream o).
  rewrite Hpull.
  unfold hand_out, bind, get, modify, ret. simpl.
  eexists. split; [reflexivity|]. repeat split. exact Hb.
Qed.

(** X3: a batch asked of an object that was never prepared raises
    [AttributeError] at its first draw (there is no engine yet) and leaves
    the object as it was. *)
Theorem sampling_before_preparation (s : W) (r : pyobj) (rs : seed)
    (fuel n : nat) :
  next_sample fuel (S n) (__init__ s r rs)
  = (Raised AttributeError, __init__ s r rs).
Proof. reflexivity. Qed.

(** X4: every draw of a prepared object consults the random engine exactly
    once, however the draw ends and also when the exhaustion flag is already
    set: the engine the object holds afterwards is the one that call left. *)
Theorem engine_consulted_once (o : Obj') (tv : list label) (fuel : nat) r o' :
  prepared o -> target_values o = Some tv ->
  _next_individual_sample fuel o = (r, o') ->
  exists rng res rng',
    _random_state o = Some rng /\
    choice rng (length tv) (ratio o) = (res, rng') /\
    _random_state o' = Some rng'.
Proof.
  intros (tv' & bufs & rng & Htv' & Hb & Hrng & Hlen) Htv Hrun.
  rewrite Htv in Htv'. injection Htv' as <-.
  eapply draw_spec in Hrun as
    [(e & rng' & Hch & _ & ->)|(k & rng' & j & o1 & Hch & _ & Hp & _ & Hr)];
    eauto.
  { exists rng, (inl e), rng'. auto. }
  exists rng, (inr k), rng'. split; [exact Hrng|]. split; [exact Hch|].
  destruct Hp as (_ & _ & Hrng1 & _). simpl in Hrng1.
  destruct r as [xy|e|].
  - destruct Hr as [(_ & _ & -> & _)|(_ & _ & p & rest & bufs1 & _ & _ & _ & ->)];
      exact Hrng1.
  - destruct Hr as (_ & -> & _). exact Hrng1.
  - destruct Hr as (-> & _). exact Hrng1.
Qed.

Lemma kept_app (rs1 rs2 : list (option feat * option label)) :
  kept (rs1 ++ rs2) = kept rs1 ++ kept rs2.
Proof. apply omap_app. Qed.

Lemma draws_add (fuel n m : nat) :
  forall o : Obj',
  draws fuel (n + m) o =
    match draws fuel n o with
    | (Done rs1, o1) =>
        match draws fuel m o1 with
        | (Done rs2, o2) => (Done (rs1 ++ rs2), o2)
        | (Raised e, o2) => (Raised e, o2)
        | (OutOfFuel, o2) => (OutOfFuel, o2)
        end
    | (Raised e, o1) => (Raised e, o1)
    | (OutOfFuel, o1) => (OutOfFuel, o1)
    end.
Proof.
  induction n as [|n IH]; intros o; simpl.
  - destruct (draws fuel m o) as [[rs|e|] o2]; reflexivity.
  - unfold bind.
    destruct (_next_individual_sample fuel o) as [[xy|e|] o1]; try reflexivity.
    rewrite IH.
    destruct (draws fuel n o1) as [[rs1|e|] o2]; try reflexivity.
    unfold ret.
    destruct (draws fuel m o2) as [[rs2|e|] o3]; reflexivity.
Qed.

(** X5: batches compose: a batch of [n] followed by a batch of [m], both
    returning, give what one batch of [n + m] gives, features and labels
    concatenated, and leave the same object. *)
Theorem batch_of_sum (fuel n m : nat) (o o1 o2 : Obj')
    (f1 f2 : list feat) (t1 t2 : list label) :
  next_sample fuel n o = (Done (f1, t1), o1) ->
  next_sample fuel m o1 = (Done (f2, t2), o2) ->
  next_sample fuel (n + m) o = (Done (f1 ++ f2, t1 ++ t2), o2).
Proof.
  unfold next_sample. rewrite !next_sample_loop_draws, draws_add.
  destruct (draws fuel n o) as [[rs1|e1|] o1']; try discriminate.
  intros [= <- <- <-].
  destruct (draws fuel m o1') as [[rs2|e2|] o2']; try discriminate.
  intros [= <- <- <-]. simpl. by rewrite kept_app, !map_app.
Qed.

(** X6: an error ends the batch: when the first [n] draws of a batch raise,
    the batch of [n + m] raises the same error and leaves the same object;
    what the earlier draws of the batch had handed out is not returned. *)
Theorem batch_error_is_final (fuel n m : nat) (o o1 : Obj') (e : exn) :
  next_sample fuel n o = (Raised e, o1) ->
  next_sample fuel (n + m) o = (Raised e, o1).
Proof.
  unfold next_sample. rewrite !next_sample_loop_draws, draws_add.
  destruct (draws fuel n o) as [[rs1|e1|] o1']; try discriminate.
  intros [= <- <-]. reflexivity.
Qed.

Lemma accepted_nonempty (r : pyobj) (n : nat) : accepted r n -> 0 < n.
Proof.
  intros (items & _ & Hlen & _ & Hsum). destruct n as [|n]; [|lia].
  destruct items; [|discriminate]. vm_compute in Hsum. discriminate.
Qed.

(** X7: what a successful [prepare_for_use] leaves: the wrapped stream as its
    own preparation made it, [n_targets] 1, the six schema attributes copied
    from it, the engine [check_random_state] gives for the constructor's
    [random_state] as it is now (a given engine is taken as earlier draws left
    it), one empty buffer per class and at least one class, the flag clear,
    the ratio untouched and accepted; the current sample is not reset. *)
Theorem successful_preparation (o o' : Obj') :
  prepare_for_use o = (Done tt, o') ->
  let s := stream_prepare_for_use (original_stream o) in
  original_stream o' = s /\ n_targets o' = Some 1%Z /\
  feature_names o' = Some (stream_feature_names s) /\
  n_cat_features o' = Some (stream_n_cat_features s) /\
  n_features o' = Some (stream_n_features s) /\
  n_num_features o' = Some (stream_n_num_features s) /\
  target_names o' = Some (stream_target_names s) /\
  target_values o' = Some (stream_target_values s) /\
  _random_state o' = Some (check_random_state (random_state o)) /\
  instance_buffer o' = Some (replicate (length (stream_target_values s)) []) /\
  0 < length (stream_target_values s) /\
  no_more_samples o' = false /\
  ratio o' = ratio o /\ accepted (ratio o) (length (stream_target_values s)) /\
  current_sample_x o' = current_sample_x o /\
  current_sample_y o' = current_sample_y o.
Proof.
  rewrite prepare_for_use_unfold. intros Hrun s.
  destruct (_prepare_for_use_cases
              (set_original_stream (stream_prepare_for_use (original_stream o)) o))
    as [[_ Hr]|[(Hn & Hacc & Hr)|(_ & _ & e & _ & Hr)]];
    rewrite Hr in Hrun; try discriminate.
  injection Hrun as <-. simpl in Hn, Hacc. fold s in Hn, Hacc.
  unfold after_preparation. simpl. fold s. rewrite empty_buffers, Hn.
  repeat (split; [reflexivity|]).
  split; [by eapply accepted_nonempty|]. repeat (split; [reflexivity|]).
  split; [exact Hacc|]. split; reflexivity.
Qed.

(** X8: the validator's checks come in a fixed order, so the first failing one
    decides the message: not a tuple, before the length, before the element
    types, before the sum. *)
Theorem validator_precedence (o : Obj') :
  (is_tuple (ratio o) = false ->
     _check_errors o = (Raised (ValueError not_tuple_msg), o)) /\
  (forall items tv,
     ratio o = PyTuple items -> target_values o = Some tv ->
     (length items <> length tv ->
        _check_errors o = (Raised (ValueError length_msg), o)) /\
     (length items = length tv ->
      ~ (Forall (fun v => type v = T_float) items \/
         Forall (fun v => type v = T_np_float64) items) ->
        _check_errors o = (Raised (ValueError type_msg), o)) /\
     (length items = length tv ->
      Forall (fun v => type v = T_float) items \/
      Forall (fun v => type v = T_np_float64) items ->
      ~ rounded_sum_is_one items ->
        _check_errors o = (Raised (ValueError sum_msg), o))).
Proof.
  split.
  - intros Hno. unfold _check_errors, bind, get, raise.
    destruct (ratio o); [discriminate|reflexivity|reflexivity].
  - intros items tv Hr Htv.
    assert (_check_errors o = check_tuple items (length tv) o) as ->.
    { unfold _check_errors, bind, get, not_None, ret. by rewrite Hr, Htv. }
    unfold check_tuple, raise, rounded_sum_is_one.
    rewrite <- !np_all_type_is, <- orb_true_iff.
    split; [|split].
    + intros Hlen. apply Nat.eqb_neq in Hlen. by rewrite Hlen.
    + intros Hlen Hty. apply Nat.eqb_eq in Hlen. rewrite Hlen. simpl.
      apply not_true_is_false in Hty. by rewrite Hty.
    + intros Hlen Hty Hsum. apply Nat.eqb_eq in Hlen. rewrite Hlen, Hty. simpl.
      apply not_true_is_false in Hsum. by rewrite Hsum.
Qed.

Lemma hand_out_flag (k : nat) (o1 : Obj') r o' :
  hand_out k o1 = (r, o') -> no_more_samples o' = no_more_samples o1.
Proof.
  unfold hand_out, buffer_pop0, bind, get, modify, not_None, subscript,
    ret, raise. simpl.
  destruct (no_more_samples o1) eqn:Hf; simpl; [by intros [= _ <-]|].
  destruct (instance_buffer o1) as [bufs1|]; simpl; [|by intros [= _ <-]].
  destruct (bufs1 !! k) as [[|p rest]|]; simpl; by intros [= _ <-].
Qed.

(** The loop changes the flag only by setting it, and then it ends
    normally. *)
Lemma fill_loop_flag (k fuel : nat) :
  forall (o : Obj') r o',
  while fuel (buffer_is_empty k) fill_step o = (r, o') ->
  no_more_samples o' = no_more_samples o \/
  (no_more_samples o' = true /\ r = Done tt).
Proof.
  induction fuel as [|fuel IH]; intros o r o' Hrun;
    rewrite while_fill_unfold in Hrun;
    (destruct (instance_buffer o) as [bufs|] eqn:Hb;
     [destruct (bufs !! k) as [[|q b]|]|]);
    try (injection Hrun as <- <-; by left).
  rewrite fill_step_cases in Hrun. cbv zeta in Hrun.
  destruct (instance_of _) as [p|];
    [|injection Hrun as <- <-; right; auto].
  destruct (target_values o) as [tv|]; [|injection Hrun as <- <-; by left].
  destruct (class_index tv p) as [i|]; [|injection Hrun as <- <-; by left].
  rewrite Hb in Hrun.
  destruct (bufs !! i) as [b0|]; [|injection Hrun as <- <-; right; auto].
  apply IH in Hrun. exact Hrun.
Qed.

Lemma fill_loop_first (k : nat) (tv : list label) (fuel : nat) :
  forall o o' : Obj',
  target_values o = Some tv ->
  (exists bufs, instance_buffer o = Some bufs /\ length bufs = length tv) ->
  k < length tv -> buffer o k = [] ->
  while fuel (buffer_is_empty k) fill_step o = (Done tt, o') ->
  no_more_samples o' = false ->
  exists j p,
    original_stream o' = after_pulls (S j) (original_stream o) /\
    instance_of (fst (stream_next_sample (after_pulls j (original_stream o))))
    = Some p /\
    class_index tv p = Some k /\
    filed tv k (instances j (original_stream o)) = [] /\
    buffer o' k = [p].
Proof.
  induction fuel as [|fuel IH]; intros o o' Htv (bufs & Hb & Hlen) Hk Hempty Hrun Hf';
    rewrite while_fill_unfold, Hb in Hrun;
    unfold buffer in Hempty; rewrite Hb in Hempty;
    (destruct (bufs !! k) as [[|q b]|] eqn:Hbk;
     [| discriminate | apply lookup_ge_None in Hbk; lia]);
    [discriminate|].
  rewrite fill_step_cases in Hrun. cbv zeta in Hrun.
  destruct (instance_of _) as [p0|] eqn:Hinst.
  2:{ injection Hrun as <-. discriminate. }
  rewrite Htv, Hb in Hrun.
  destruct (class_index tv p0) as [i0|] eqn:Hci; [|discriminate].
  destruct (class_index_Some _ _ _ Hci) as [Hi0 _].
  destruct (lookup_lt_is_Some_2 bufs i0) as [b0 Hb0]; [lia|].
  rewrite Hb0 in Hrun.
  destruct (decide (i0 = k)) as [->|Hne].
  - rewrite Hbk in Hb0. injection Hb0 as <-.
    erewrite while_fill_nonempty in Hrun;
      [|reflexivity|simpl; by rewrite list_lookup_insert_eq by lia].
    injection Hrun as <-. exists 0, p0. simpl.
    split; [reflexivity|]. split; [exact Hinst|]. split; [exact Hci|].
    split; [reflexivity|]. unfold buffer. simpl.
    by rewrite list_lookup_insert_eq by lia.
  - apply IH in Hrun as (j & p & Hs & Hp & Hcp & Hnone & Hbuf); simpl;
      try assumption.
    2:{ eexists. split; [reflexivity|]. by rewrite length_insert. }
    2:{ unfold buffer. simpl. rewrite list_lookup_insert_ne by exact Hne.
        by rewrite Hbk. }
    exists (S j), p. split; [exact Hs|]. split; [exact Hp|].
    split; [exact Hcp|]. split; [|exact Hbuf].
    rewrite instances_S, Hinst, filed_cons, filed_one.
    rewrite decide_False by congruence. exact Hnone.
Qed.

(** X9: when the flag is clear and the buffer of the drawn class is empty, a
    draw that returns an instance returns the first instance of that class
    the wrapped stream gives: it pulled up to that instance and no further,
    none of the instances pulled before it is of the drawn class, and the
    buffer of the drawn class is empty again afterwards. *)
Theorem draw_finds_first_of_class (o : Obj') (tv : list label) (rng rng' : R)
    (k fuel : nat) xy o' :
  target_values o = Some tv -> _random_state o = Some rng ->
  (exists bufs, instance_buffer o = Some bufs /\ length bufs = length tv) ->
  choice rng (length tv) (ratio o) = (inr k, rng') ->
  buffer o k = [] ->
  _next_individual_sample fuel o = (Done xy, o') ->
  no_more_samples o' = false ->
  exists j p,
    original_stream o' = after_pulls (S j) (original_stream o) /\
    instance_of (fst (stream_next_sample (after_pulls j (original_stream o))))
    = Some p /\
    xy = (Some (fst p), Some (snd p)) /\
    class_index tv p = Some k /\
    filed tv k (instances j (original_stream o)) = [] /\
    buffer o' k = [].
Proof.
  intros Htv Hrng Hbufs Hch Hempty Hrun Hf'.
  pose proof (choice_range _ _ _ _ _ Hch) as Hk.
  rewrite (_next_individual_sample_unfold fuel o tv rng rng' k Htv Hrng Hch) in Hrun.
  destruct (while fuel _ _ _) as [[[]|e|] o1] eqn:Hloop; try discriminate.
  pose proof (hand_out_flag _ _ _ _ Hrun) as Hf1. rewrite Hf' in Hf1.
  apply (fill_loop_first k tv) in Hloop as (j & p & Hs & Hp & Hci & Hnone & Hbuf);
    try assumption; [|by symmetry].
  exists j, p.
  unfold buffer in Hbuf.
  destruct (instance_buffer o1) as [bufs1|] eqn:Hb1; [|discriminate].
  destruct (bufs1 !! k) as [b|] eqn:Hbk; [|discriminate].
  simpl in Hbuf. subst b.
  unfold hand_out, buffer_pop0, bind, get, modify, not_None, subscript, ret in Hrun.
  simpl in Hrun. rewrite <- Hf1 in Hrun. simpl in Hrun.
  rewrite Hb1 in Hrun. simpl in Hrun. rewrite Hbk in Hrun. simpl in Hrun.
  injection Hrun as <- <-. simpl.
  split; [exact Hs|]. split; [exact Hp|]. split; [reflexivity|].
  split; [exact Hci|]. split; [exact Hnone|].
  unfold buffer. simpl. rewrite list_lookup_insert_eq; [reflexivity|].
  by eapply lookup_lt_Some.
Qed.

(** X10: the exhaustion flag is set by an empty pull and by nothing else: a
    draw that finds the flag clear and leaves it set has returned the
    sentinel, and the last thing it pulled from the wrapped stream held no
    instance. *)
Theorem flag_set_by_empty_pull (o : Obj') (tv : list label) (fuel : nat) r o' :
  prepared o -> target_values o = Some tv ->
  no_more_samples o = false ->
  _next_individual_sample fuel o = (r, o') ->
  no_more_samples o' = true ->
  r = Done (None, None) /\
  exists j,
    original_stream o' = after_pulls (S j) (original_stream o) /\
    instance_of (fst (stream_next_sample (after_pulls j (original_stream o))))
    = None.
Proof.
  intros (tv' & bufs & rng & Htv' & Hb & Hrng & Hlen) Htv Hf Hrun Hf'.
  rewrite Htv in Htv'. injection Htv' as <-.
  destruct (choice rng (length tv) (ratio o)) as [[e|k] rng'] eqn:Hch.
  { eapply draw_spec in Hrun as
      [(e1 & rng1 & Hch1 & _ & ->)|(k & rng1 & _ & _ & Hch1 & _)]; eauto;
      [simpl in Hf'|]; congruence. }
  pose proof (choice_range _ _ _ _ _ Hch) as Hk.
  rewrite (_next_individual_sample_unfold fuel o tv rng rng' k Htv Hrng Hch) in Hrun.
  destruct (while fuel _ _ _) as [r1 o1] eqn:Hloop.
  pose proof (fill_loop_flag _ _ _ _ _ Hloop) as Hflag. simpl in Hflag.
  apply (fill_loop_spec k tv) in Hloop as (j & Hp & _ & Hr1); simpl; eauto.
  destruct Hp as (Hs & _). simpl in Hs.
  destruct r1 as [[]|e|].
  - pose proof (hand_out_flag _ _ _ _ Hrun) as Hf1. rewrite Hf' in Hf1.
    destruct Hr1 as [[Hsame _]|[_ (j' & -> & Hj')]];
      [simpl in Hsame; congruence|].
    unfold hand_out, bind, get, modify, ret in Hrun. simpl in Hrun.
    rewrite <- Hf1 in Hrun. simpl in Hrun. injection Hrun as <- <-.
    split; [reflexivity|]. exists j'. auto.
  - injection Hrun as <- <-. destruct Hflag as [?|[_ ?]]; congruence.
  - injection Hrun as <- <-. destruct Hflag as [?|[_ ?]]; congruence.
Qed.

(** X11: when the flag is set, a draw for a class whose buffer holds an
    instance returns the sentinel all the same: nothing is pulled and nothing
    is taken from the buffer, so the buffered instance is never handed out. *)
Theorem flagged_draw_leaves_buffer (o : Obj') (tv : list label) (rng rng' : R)
    (k : nat) (bufs : list (list (feat * label))) (p : feat * label)
    (rest : list (feat * label)) (fuel : nat) :
  target_values o = Some tv -> _random_state o = Some rng ->
  instance_buffer o = Some bufs ->
  choice rng (length tv) (ratio o) = (inr k, rng') ->
  bufs !! k = Some (p :: rest) -> no_more_samples o = true ->
  exists o',
    _next_individual_sample fuel o = (Done (None, None), o') /\
    original_stream o' = original_stream o /\
    instance_buffer o' = Some bufs /\ no_more_samples o' = true.
Proof.
  intros Htv Hrng Hb Hch Hbk Hf.
  rewrite (_next_individual_sample_unfold fuel o tv rng rng' k Htv Hrng Hch).
  rewrite (while_fill_nonempty fuel k (advance_engine rng' o) bufs p rest Hb Hbk).
  unfold hand_out, bind, get, modify, ret. simpl. rewrite Hf. simpl.
  eexists. split; [reflexivity|]. repeat split; assumption.
Qed.

End More.

(** ** The further properties on recorded runs *)

(** Split the hypotheses of a recorded run and settle each by what is at hand
    or by running it. *)
Ltac settle := repeat apply conj; first [eassumption | run].

Lemma draw_from_buffer_witness :
  (target_values after_one_draw = Some [0; 1] /\
   _random_state after_one_draw = Some [0; 0; 1] /\
   instance_buffer after_one_draw = Some [[(10, 0)]; []] /\
   choice [0; 0; 1] (length [0; 1]) (ratio after_one_draw) = (inr 0, [0; 1]) /\
   [[(10, 0)]; []] !! 0 = Some [(10, 0)] /\
   no_more_samples after_one_draw = false) /\
  exists o',
    _next_individual_sample 0 after_one_draw
    = (Done (Some (fst (10, 0)), Some (snd (10, 0))), o') /\
    original_stream o' = original_stream after_one_draw /\
    instance_buffer o' = Some (<[0 := []]> [[(10, 0)]; []]) /\
    no_more_samples o' = false /\ _random_state o' = Some [0; 1] /\
    current_sample_x o' = Some (fst (10, 0)) /\
    current_sample_y o' = Some (snd (10, 0)).
Proof.
  split; [settle|].
  apply (draw_from_buffer after_one_draw [0; 1] [0; 0; 1] [0; 1] 0
           [[(10, 0)]; []] (10, 0) [] 0); run.
Defined.

Lemma draw_at_end_of_stream_witness :
  (target_values at_end = Some [0; 1] /\ _random_state at_end = Some [1] /\
   instance_buffer at_end = Some [[]; []] /\
   choice [1] (length [0; 1]) (ratio at_end) = (inr 1, []) /\
   [[]; []] !! 1 = Some (@nil (nat * nat)) /\
   instance_of (fst (stream_next_sample (original_stream at_end))) = None) /\
  exists o',
    _next_individual_sample 1 at_end = (Done (None, None), o') /\
    no_more_samples o' = true /\
    original_stream o' = snd (stream_next_sample (original_stream at_end)) /\
    instance_buffer o' = Some [[]; []] /\
    current_sample_x o' = None /\ current_sample_y o' = None.
Proof.
  split; [settle|].
  apply (draw_at_end_of_stream at_end [0; 1] [1] [] 1 [[]; []] 0); run.
Defined.

Lemma ready_prepared : prepared ready.
Proof. exists [0; 1], [[]; []], [1; 0; 0; 1]. settle. Qed.

Lemma engine_consulted_once_witness :
  (prepared ready /\ target_values ready = Some [0; 1] /\
   _next_individual_sample 10 ready
   = (Done (Some 11, Some 1), after_one_draw)) /\
  exists rng res rng',
    _random_state ready = Some rng /\
    choice rng (length [0; 1]) (ratio ready) = (res, rng') /\
    _random_state after_one_draw = Some rng'.
Proof.
  assert (_next_individual_sample 10 ready
          = (Done (Some 11, Some 1), after_one_draw)) as Hrun by run.
  pose proof ready_prepared as Hprep. split; [settle|].
  exact (engine_consulted_once ready [0; 1] 10 _ _ ready_prepared eq_refl Hrun).
Defined.

Lemma batch_of_sum_witness :
  (next_sample 10 1 ready = (Done ([11], [1]), after_one_draw) /\
   next_sample 10 2 after_one_draw = (Done ([10; 12], [0; 0]), at_end)) /\
  next_sample 10 (1 + 2) ready = (Done ([11] ++ [10; 12], [1] ++ [0; 0]), at_end).
Proof.
  assert (next_sample 10 1 ready = (Done ([11], [1]), after_one_draw)) as H1 by run.
  assert (next_sample 10 2 after_one_draw = (Done ([10; 12], [0; 0]), at_end))
    as H2 by run.
  split; [split; [exact H1 | exact H2]|].
  exact (batch_of_sum 10 1 2 ready after_one_draw at_end _ _ _ _ H1 H2).
Defined.

Lemma batch_error_is_final_witness :
  next_sample 2 1 stray_label
  = (Raised (ValueError not_in_list), snd (next_sample 2 1 stray_label)) /\
  next_sample 2 (1 + 3) stray_label
  = (Raised (ValueError not_in_list), snd (next_sample 2 1 stray_label)).
Proof.
  assert (next_sample 2 1 stray_label
          = (Raised (ValueError not_in_list), snd (next_sample 2 1 stray_label)))
    as H1 by run.
  split; [exact H1|].
  exact (batch_error_is_final 2 1 3 stray_label _ _ H1).
Defined.

Lemma successful_preparation_witness :
  prepare_for_use balanced = (Done tt, ready) /\
  (original_stream ready = stream_prepare_for_use (original_stream balanced) /\
   n_targets ready = Some 1%Z /\
   feature_names ready
   = Some (stream_feature_names (stream_prepare_for_use (original_stream balanced))) /\
   n_cat_features ready
   = Some (stream_n_cat_features (stream_prepare_for_use (original_stream balanced))) /\
   n_features ready
   = Some (stream_n_features (stream_prepare_for_use (original_stream balanced))) /\
   n_num_features ready
   = Some (stream_n_num_features (stream_prepare_for_use (original_stream balanced))) /\
   target_names ready
   = Some (stream_target_names (stream_prepare_for_use (original_stream balanced))) /\
   target_values ready
   = Some (stream_target_values (stream_prepare_for_use (original_stream balanced))) /\
   _random_state ready = Some (check_random_state (random_state balanced)) /\
   instance_buffer ready
   = Some (replicate
             (length (stream_target_values
                        (stream_prepare_for_use (original_stream balanced)))) []) /\
   0 < length (stream_target_values
                 (stream_prepare_for_use (original_stream balanced))) /\
   no_more_samples ready = false /\
   ratio ready = ratio balanced /\
   accepted (ratio balanced)
     (length (stream_target_values
                (stream_prepare_for_use (original_stream balanced)))) /\
   current_sample_x ready = current_sample_x balanced /\
   current_sample_y ready = current_sample_y balanced).
Proof.
  assert (prepare_for_use balanced = (Done tt, ready)) as Hrun by run.
  split; [exact Hrun|]. exact (successful_preparation balanced ready Hrun).
Defined.

Lemma draw_finds_first_of_class_witness :
  (target_values ready = Some [0; 1] /\
   _random_state ready = Some [1; 0; 0; 1] /\
   (exists bufs, instance_buffer ready = Some bufs /\
                 length bufs = length [0; 1]) /\
   choice [1; 0; 0; 1] (length [0; 1]) (ratio ready) = (inr 1, [0; 0; 1]) /\
   buffer ready 1 = [] /\
   _next_individual_sample 10 ready = (Done (Some 11, Some 1), after_one_draw) /\
   no_more_samples after_one_draw = false) /\
  exists j p,
    original_stream after_one_draw = after_pulls (S j) (original_stream ready) /\
    instance_of (fst (stream_next_sample (after_pulls j (original_stream ready))))
    = Some p /\
    (Some 11, Some 1) = (Some (fst p), Some (snd p)) /\
    class_index [0; 1] p = Some 1 /\
    filed [0; 1] 1 (instances j (original_stream ready)) = [] /\
    buffer after_one_draw 1 = [].
Proof.
  assert (_next_individual_sample 10 ready
          = (Done (Some 11, Some 1), after_one_draw)) as Hrun by run.
  assert (exists bufs, instance_buffer ready = Some bufs /\
                       length bufs = length [0; 1]) as Hb
    by (exists [[]; []]; settle).
  split; [settle|].
  exact (draw_finds_first_of_class ready [0; 1] [1; 0; 0; 1] [0; 0; 1] 1 10 _ _
           eq_refl eq_refl Hb eq_refl eq_refl Hrun eq_refl).
Defined.

Lemma at_end_prepared : prepared at_end.
Proof. exists [0; 1], [[]; []], [1]. settle. Qed.

Lemma flag_set_by_empty_pull_witness :
  (prepared at_end /\ target_values at_end = Some [0; 1] /\
   no_more_samples at_end = false /\
   _next_individual_sample 10 at_end = (Done (None, None), drained) /\
   no_more_samples drained = true) /\
  (Done (None, None) = Done (@None nat, @None nat) /\
   exists j,
     original_stream drained = after_pulls (S j) (original_stream at_end) /\
     instance_of (fst (stream_next_sample (after_pulls j (original_stream at_end))))
     = None).
Proof.
  assert (_next_individual_sample 10 at_end = (Done (None, None), drained))
    as Hrun by run.
  pose proof at_end_prepared as Hprep. split; [settle|].
  exact (flag_set_by_empty_pull at_end [0; 1] 10 _ _ at_end_prepared eq_refl
           eq_refl Hrun eq_refl).
Defined.

Lemma flagged_draw_leaves_buffer_witness :
  (target_values stranded = Some [0; 1] /\ _random_state stranded = Some [0; 0] /\
   instance_buffer stranded = Some [[(10, 0)]; []] /\
   choice [0; 0] (length [0; 1]) (ratio stranded) = (inr 0, [0]) /\
   [[(10, 0)]; []] !! 0 = Some [(10, 0)] /\
   no_more_samples stranded = true) /\
  exists o',
    _next_individual_sample 0 stranded = (Done (None, None), o') /\
    original_stream o' = original_stream stranded /\
    instance_buffer o' = Some [[(10, 0)]; []] /\ no_more_samples o' = true.
Proof.
  split; [settle|].
  apply (flagged_draw_leaves_buffer stranded [0; 1] [0; 0] [0] 0
           [[(10, 0)]; []] (10, 0) [] 0); run.
Defined.
